(** * National Rail departure sensor: a shallow embedding of
      [custom_components/nationalrailtimes/sensor.py]

    The sensor polls a rail-data client, keeps the last result it could
    interpret, and projects it to a display string and an attribute
    mapping.  The Python values that flow through it (the parsed reply of
    the client) are modelled as a small universe of JSON-like values;
    Python exceptions are modelled by an explicit result type, and the
    mutation of [self] by a state-and-exception monad in which the state
    survives a raise.  The warnings the sensor logs and the property
    [icon] are left out. *)

From stdpp Require Import gmap strings list fin_maps.
From Stdlib Require Import Ascii String.

Open Scope string_scope.

(** ** Python values *)

(** The reply of the client is parsed XML: nested dictionaries with string
    keys, lists, strings and scalars. *)
#[warnings="-register-all"]
Inductive pyval : Type :=
  | PNone
  | PBool (b : bool)
  | PInt (z : Z)
  | PStr (s : string)
  | PList (l : list pyval)
  | PDict (d : gmap string pyval).

(** ** Python exceptions *)

(** Where a class sits under [BaseException] decides which [except]
    clause of [async_update] takes it. *)
Inductive exc_family : Type :=
  | OSErrorFamily        (* OSError and its subclasses *)
  | ExceptionFamily      (* under Exception, not under OSError *)
  | BaseExceptionOnly.   (* CancelledError, KeyboardInterrupt, ... *)

Record pyexc : Type := mk_exc { exc_family_of : exc_family; exc_class : string }.

Definition KeyError : pyexc := mk_exc ExceptionFamily "KeyError".
Definition IndexError : pyexc := mk_exc ExceptionFamily "IndexError".
Definition TypeError : pyexc := mk_exc ExceptionFamily "TypeError".
Definition AttributeError : pyexc := mk_exc ExceptionFamily "AttributeError".
Definition ParserError : pyexc := mk_exc ExceptionFamily "ParserError".

Definition isinstance_OSError (e : pyexc) : bool :=
  match exc_family_of e with OSErrorFamily => true | _ => false end.

Definition isinstance_Exception (e : pyexc) : bool :=
  match exc_family_of e with BaseExceptionOnly => false | _ => true end.

(** The outcome of evaluating an expression: a value or a raised exception. *)
Inductive res (A : Type) : Type :=
  | Ok (a : A)
  | Raise (e : pyexc).
Arguments Ok {A} a.
Arguments Raise {A} e.

Definition res_bind {A B} (r : res A) (k : A -> res B) : res B :=
  match r with
  | Ok a => k a
  | Raise e => Raise e
  end.

Notation "'let?' x := r 'in' k" := (res_bind r (fun x => k))
  (at level 10, x pattern, r at level 100, k at level 200).

(** ** The operations of Python the sensor uses *)

(** [bool(v)], as tested by [not result]. *)
Definition truthy (v : pyval) : bool :=
  match v with
  | PNone => false
  | PBool b => b
  | PInt z => negb (Z.eqb z 0)
  | PStr s => negb (String.eqb s "")
  | PList l => match l with [] => false | _ => true end
  | PDict d => negb (bool_decide (d = ∅))
  end.

(** [v[k]] for a string key [k]. *)
Definition py_getitem (v : pyval) (k : string) : res pyval :=
  match v with
  | PDict d => match d !! k with Some x => Ok x | None => Raise KeyError end
  | _ => Raise TypeError
  end.

(** [v[0]].  A dictionary of the universe has string keys only, so the
    integer key is never found. *)
Definition py_getitem_0 (v : pyval) : res pyval :=
  match v with
  | PList (x :: _) => Ok x
  | PList [] => Raise IndexError
  | PStr (String c _) => Ok (PStr (String c ""))
  | PStr "" => Raise IndexError
  | PDict _ => Raise KeyError
  | _ => Raise TypeError
  end.

(** [v[1:]]. *)
Definition py_slice_from_1 (v : pyval) : res pyval :=
  match v with
  | PList l => Ok (PList (tail l))
  | PStr s => Ok (PStr (match s with String _ r => r | "" => "" end))
  | _ => Raise TypeError
  end.

(** [v.get(k, dflt)]: only dictionaries have the method. *)
Definition py_get (v : pyval) (k : string) (dflt : pyval) : res pyval :=
  match v with
  | PDict d => Ok (default dflt (d !! k))
  | _ => Raise AttributeError
  end.

(** [len(v)]. *)
Definition py_len (v : pyval) : res nat :=
  match v with
  | PDict d => Ok (size d)
  | PList l => Ok (List.length l)
  | PStr s => Ok (String.length s)
  | _ => Raise TypeError
  end.

(** [v.copy()]: a shallow copy; dictionaries and lists have the method.
    In a functional model the copy is the value itself, and what is done
    to the copy afterwards is not done to the original. *)
Definition py_copy (v : pyval) : res pyval :=
  match v with
  | PDict d => Ok (PDict d)
  | PList l => Ok (PList l)
  | _ => Raise AttributeError
  end.

(** [v.pop(k)] with a string key and NO default: the popped value and the
    object after the removal.  On a dictionary a missing key raises
    [KeyError]; [list.pop] wants an integer. *)
Definition py_pop (v : pyval) (k : string) : res (pyval * pyval) :=
  match v with
  | PDict d =>
      match d !! k with
      | Some x => Ok (x, PDict (delete k d))
      | None => Raise KeyError
      end
  | PList _ => Raise TypeError
  | _ => Raise AttributeError
  end.

Fixpoint chars (s : string) : list pyval :=
  match s with
  | "" => []
  | String c r => PStr (String c "") :: chars r
  end.

(** The elements [for x in v] runs over.  A dictionary yields its keys
    (here in the order of the map, not of insertion: the sensor only calls
    [get] on each, which no key has). *)
Definition py_iter (v : pyval) : res (list pyval) :=
  match v with
  | PList l => Ok l
  | PStr s => Ok (chars s)
  | PDict d => Ok (PStr <$> (map_to_list d).*1)
  | _ => Raise TypeError
  end.

(** [v != "On time"]: only the string itself is equal to the literal. *)
Definition py_ne_str (v : pyval) (lit : string) : bool :=
  match v with
  | PStr s => negb (String.eqb s lit)
  | _ => true
  end.

(** A list comprehension [[f x for x in l]]: the first raise ends it. *)
Fixpoint comprehension (f : pyval -> res pyval) (l : list pyval) : res (list pyval) :=
  match l with
  | [] => Ok []
  | x :: r =>
      let? y := f x in
      let? ys := comprehension f r in
      Ok (y :: ys)
  end.

(** ** Times of day *)

(** What [strftime("%H:%M")] reads of a [datetime]; a [datetime] has its
    hour below 24 and its minute below 60. *)
Record datetime : Type := mk_datetime {
  dt_hour : nat;
  dt_minute : nat;
  dt_hour_range : Nat.ltb dt_hour 24 = true;
  dt_minute_range : Nat.ltb dt_minute 60 = true
}.

(** [datetime.time(h, m)] where the ranges hold. *)
Definition make_datetime (h m : nat) : option datetime :=
  match Nat.ltb h 24 as b return Nat.ltb h 24 = b -> option datetime with
  | true => fun Hh =>
      match Nat.ltb m 60 as b return Nat.ltb m 60 = b -> option datetime with
      | true => fun Hm => Some (mk_datetime h m Hh Hm)
      | false => fun _ => None
      end eq_refl
  | false => fun _ => None
  end eq_refl.

Definition digit (n : nat) : ascii := ascii_of_nat (48 + n mod 10).

(** [%H] and [%M]: two digits, zero-padded. *)
Definition two_digits (n : nat) : string :=
  String (digit (n / 10)) (String (digit n) "").

Definition strftime_HM (t : datetime) : string :=
  two_digits (dt_hour t) ++ ":" ++ two_digits (dt_minute t).

Definition is_digit (c : ascii) : bool :=
  let n := nat_of_ascii c in Nat.leb 48 n && Nat.leb n 57.

(** The shape [HH:MM]. *)
Definition is_HHMM (s : string) : bool :=
  match s with
  | String h1 (String h2 (String c (String m1 (String m2 "")))) =>
      is_digit h1 && is_digit h2 && Ascii.eqb c ":" && is_digit m1 && is_digit m2
  | _ => false
  end.

(** ** The rail-data client *)

(** Modelled from the spec: the client class [Api] of the module [api],
    which is not among the sources.  It is constructed from the API key
    and the two station codes and accepts configuration keys; its one
    operation, the fetch, is an effect whose outcome the sensor receives
    (see [async_update]). *)
Record Api : Type := mk_Api {
  api_key_of : string;
  api_station : string;
  api_destination : string;
  api_config : gmap string string
}.

Definition Api_init (api_key station destination : string) : Api :=
  mk_Api api_key station destination ∅.

Definition set_config (k v : string) (a : Api) : Api :=
  mk_Api (api_key_of a) (api_station a) (api_destination a) (<[k := v]> (api_config a)).

(** ** The sensor *)

Record NationalrailSensor : Type := mk_sensor {
  _platformname : pyval;
  _name : string;
  time_offset : string;
  destination : string;
  station : string;
  _state : option string;
  station_name : pyval;
  destination_name : pyval;
  api : Api;
  last_data : pyval;
  service_data : pyval
}.

Definition set__state (v : option string) (s : NationalrailSensor) :=
  mk_sensor (_platformname s) (_name s) (time_offset s) (destination s) (station s)
    v (station_name s) (destination_name s) (api s) (last_data s) (service_data s).

Definition set_station_name (v : pyval) (s : NationalrailSensor) :=
  mk_sensor (_platformname s) (_name s) (time_offset s) (destination s) (station s)
    (_state s) v (destination_name s) (api s) (last_data s) (service_data s).

Definition set_destination_name (v : pyval) (s : NationalrailSensor) :=
  mk_sensor (_platformname s) (_name s) (time_offset s) (destination s) (station s)
    (_state s) (station_name s) v (api s) (last_data s) (service_data s).

Definition set_last_data (v : pyval) (s : NationalrailSensor) :=
  mk_sensor (_platformname s) (_name s) (time_offset s) (destination s) (station s)
    (_state s) (station_name s) (destination_name s) (api s) v (service_data s).

Definition set_service_data (v : pyval) (s : NationalrailSensor) :=
  mk_sensor (_platformname s) (_name s) (time_offset s) (destination s) (station s)
    (_state s) (station_name s) (destination_name s) (api s) (last_data s) v.

(** A method that mutates [self]: it ends with a value or a raise, and in
    both cases with the attributes as the statements run so far left them. *)
Definition M (A : Type) : Type := NationalrailSensor -> res A * NationalrailSensor.

Definition ret {A} (a : A) : M A := fun s => (Ok a, s).

Definition bind {A B} (m : M A) (k : A -> M B) : M B :=
  fun s =>
    match m s with
    | (Ok a, s') => k a s'
    | (Raise e, s') => (Raise e, s')
    end.

Definition lift {A} (r : res A) : M A := fun s => (r, s).
Definition assign (f : NationalrailSensor -> NationalrailSensor) : M unit :=
  fun s => (Ok tt, f s).
Definition read {A} (f : NationalrailSensor -> A) : M A := fun s => (Ok (f s), s).

Notation "'do' x <- m ; k" := (bind m (fun x => k))
  (at level 10, x name, m at level 100, k at level 200,
   format "'[v' 'do'  x  <-  m ; '/' k ']'").

(** [CONF_NAME] of [homeassistant.const]. *)
Definition CONF_NAME : string := "name".

Section Sensor.

(** The constants of the module [const] and the table of the module
    [station_codes] are not among the sources: they are parameters. *)
Variables CONF_API_KEY CONF_ARRIVAL CONF_DESTINATIONS : string.
Variables CONF_TIME_OFFSET CONF_TIME_WINDOW DEFAULT_NAME : string.
Variable STATIONS : gmap string string.

(** [dateutil.parser.parse] on a string: the library's parser, with
    whatever it raises on a string it cannot read. *)
Variable dateutil_parse : string -> res datetime.

(** [parser.parse(v)]: anything but a string is refused with [TypeError]. *)
Definition parser_parse (v : pyval) : res datetime :=
  match v with
  | PStr s => dateutil_parse s
  | _ => Raise TypeError
  end.

(** [NationalrailSensor.__init__] *)
Definition init (name : pyval) (station destination api_key time_offset time_window : string)
  : NationalrailSensor :=
  {| _platformname := name;
     _name := station ++ "_" ++ destination ++ "_" ++ time_offset;
     time_offset := time_offset;
     destination := destination;
     station := station;
     _state := None;
     station_name := PStr station;
     destination_name := PStr destination;
     api := set_config CONF_TIME_WINDOW time_window
              (set_config CONF_TIME_OFFSET time_offset
                 (Api_init api_key station destination));
     last_data := PDict ∅;
     service_data := PDict ∅ |}.

(** The properties [unique_id] and [state]. *)
Definition unique_id (self : NationalrailSensor) : string := _name self.
Definition state (self : NationalrailSensor) : option string := _state self.

(** The conditional expression bound to [next_train_time]: the condition
    is evaluated first, then the chosen subscript. *)
Definition next_train_time (service_data : pyval) : res pyval :=
  let? etd := py_get service_data "etd" (PStr "On Time") in
  if py_ne_str etd "On time"
  then py_getitem service_data "etd"
  else py_getitem service_data "std".

(** The statements of [async_update] after the [try]. *)
Definition interpret (result : pyval) : M unit :=
  do v <- lift (py_getitem result "locationName");
  do _ <- assign (set_station_name v);
  do v <- lift (py_getitem result "filterLocationName");
  do _ <- assign (set_destination_name v);
  do services <- lift (py_get result "trainServices" PNone);
  do v <- lift (py_getitem_0 services);
  do _ <- assign (set_service_data v);
  do service_data <- read service_data;
  do next_train_time <- lift (next_train_time service_data);
  do t <- lift (parser_parse next_train_time);
  do _ <- assign (set__state (Some (strftime_HM t)));
  assign (set_last_data result).

(** [async_update], given the outcome of [await self.api.api_request()].
    The [try] encloses the request and the test of its result; an
    exception that is neither under [OSError] nor under [Exception] passes
    through both [except] clauses. *)
Definition async_update (request : res pyval) : M unit :=
  match request with
  | Ok result =>
      if negb (truthy result)
      then assign (set__state
             (Some "There was no reply from National Rail Trains for this service"))
      else interpret result
  | Raise e =>
      if isinstance_OSError e
      then assign (set__state (Some "There was an internal error for this service"))
      else if isinstance_Exception e
      then assign (set__state
             (Some "Cannot interpret XML for this service from National Rail"))
      else lift (Raise e)
  end.

(** The comprehension bound to [attributes["calling_points"]]. *)
Definition calling_points (service_data : pyval) : res pyval :=
  let? groups := py_get service_data "subsequentCallingPoints" (PList [PDict ∅]) in
  let? group := py_getitem_0 groups in
  let? points := py_get group "callingPoint" (PList []) in
  let? callpoints := py_iter points in
  let? names := comprehension (fun callpoint => py_get callpoint "locationName" (PStr ""))
                  callpoints in
  Ok (PList names).

(** The property [extra_state_attributes]: it reads [self] only. *)
Definition extra_state_attributes (self : NationalrailSensor) : res (gmap string pyval) :=
  let data := last_data self in
  let service_data := service_data self in
  let? service_dict := py_copy service_data in
  let? popped := py_pop service_dict "subsequentCallingPoints" in
  let service_dict := snd popped in
  let attributes : gmap string pyval := ∅ in
  let? v := py_get data "generatedAt" (PStr "") in
  let attributes := <["last_refresh" := v]> attributes in
  let? n := py_len data in
  if Nat.eqb n 0 then Ok attributes else
  let? v := py_get data "nrccMessages" (PStr "") in
  let attributes := <["message" := v]> attributes in
  let? v := py_getitem data "locationName" in
  let attributes := <["station_name" := v]> attributes in
  let? v := py_getitem data "filterLocationName" in
  let attributes := <["destination_name" := v]> attributes in
  let attributes := <["service" := service_dict]> attributes in
  let? services := py_getitem data "trainServices" in
  let? v := py_slice_from_1 services in
  let attributes := <["services" := v]> attributes in
  let? v := calling_points service_data in
  let attributes := <["calling_points" := v]> attributes in
  let attributes := <["offset" := PStr (time_offset self)]> attributes in
  let attributes := <["station_code" := PStr (station self)]> attributes in
  match STATIONS !! destination self with
  | Some station_name =>
      let attributes := <["target_station_name" := PStr station_name]> attributes in
      let attributes := <["target_station_code" := PStr (destination self)]> attributes in
      Ok attributes
  | None => Ok attributes
  end.

(** The sensor after a run of scheduling ticks, each with the outcome of
    its request; a tick that raises leaves the sensor as it was at the
    raise. *)
Fixpoint updates (requests : list (res pyval)) (self : NationalrailSensor)
  : NationalrailSensor :=
  match requests with
  | [] => self
  | request :: rest => updates rest (snd (async_update request self))
  end.

(** ** Platform setup *)

(** What an expression of the setup code can denote besides a value: the
    bound method [get] of a dictionary. *)
Inductive pyobj : Type :=
  | Value (v : pyval)
  | BoundGet (self : pyval).

(** [v.get], the attribute. *)
Definition getattr_get (v : pyval) : res pyobj :=
  match v with
  | PDict _ => Ok (BoundGet v)
  | _ => Raise AttributeError
  end.

(** [o(k)]: calling with one string argument. *)
Definition py_call (o : pyobj) (k : string) : res pyval :=
  match o with
  | BoundGet v => py_get v k PNone
  | Value _ => Raise TypeError
  end.

(** [o[k]]: a method object is not subscriptable. *)
Definition py_subscript (o : pyobj) (k : string) : res pyval :=
  match o with
  | BoundGet _ => Raise TypeError
  | Value v => py_getitem v k
  end.

(** The constructor called on values of the configuration: the
    concatenation that builds [_name] wants strings. *)
Definition as_str (v : pyval) : res string :=
  match v with
  | PStr s => Ok s
  | _ => Raise TypeError
  end.

Definition construct (name station destination api_key time_offset time_window : pyval)
  : res NationalrailSensor :=
  let? station := as_str station in
  let? destination := as_str destination in
  let? time_offset := as_str time_offset in
  let? api_key := as_str api_key in
  let? time_window := as_str time_window in
  Ok (init name station destination api_key time_offset time_window).

(** The loop both setup functions share: one sensor per destination that
    is not [None]. *)
Fixpoint build_sensors (name station api_key time_offset time_window : pyval)
    (destinations : list pyval) : res (list NationalrailSensor) :=
  match destinations with
  | [] => Ok []
  | destination :: rest =>
      match destination with
      | PNone => build_sensors name station api_key time_offset time_window rest
      | _ =>
          let? sensor :=
            construct name station destination api_key time_offset time_window in
          let? sensors :=
            build_sensors name station api_key time_offset time_window rest in
          Ok (sensor :: sensors)
      end
  end.

Definition collect_sensors (name station destinations api_key time_offset time_window : pyval)
  : res (list NationalrailSensor) :=
  match station with
  | PNone => Ok []
  | _ =>
      let? destinations := py_iter destinations in
      build_sensors name station api_key time_offset time_window destinations
  end.

(** [async_setup_entry], from the configuration dictionary found under the
    entry: it subscripts the dictionary.  The result is the list handed to
    [async_add_entities]. *)
Definition async_setup_entry (config : gmap string pyval) : res (list NationalrailSensor) :=
  let name := default (PStr DEFAULT_NAME) (config !! CONF_NAME) in
  let? station := py_getitem (PDict config) CONF_ARRIVAL in
  let? destinations := py_getitem (PDict config) CONF_DESTINATIONS in
  let? api_key := py_getitem (PDict config) CONF_API_KEY in
  let? time_offset := py_getitem (PDict config) CONF_TIME_OFFSET in
  let? time_window := py_getitem (PDict config) CONF_TIME_WINDOW in
  collect_sensors name station destinations api_key time_offset time_window.

(** [async_setup_platform]: the second statement subscripts the method
    [config.get] where the others call it. *)
Definition async_setup_platform (config : pyval) : res (list NationalrailSensor) :=
  let? get := getattr_get config in
  let? name := py_call get CONF_NAME in
  let? get := getattr_get config in
  let? station := py_subscript get CONF_ARRIVAL in
  let? get := getattr_get config in
  let? destinations := py_call get CONF_DESTINATIONS in
  let? get := getattr_get config in
  let? api_key := py_call get CONF_API_KEY in
  let? get := getattr_get config in
  let? time_offset := py_call get CONF_TIME_OFFSET in
  let? get := getattr_get config in
  let? time_window := py_call get CONF_TIME_WINDOW in
  collect_sensors name station destinations api_key time_offset time_window.

End Sensor.

(** ** Sample data *)

Definition digit_value (c : ascii) : nat := nat_of_ascii c - 48.

(** An instance of the parser for running the model: it reads the 24-hour
    [HH:MM] strings of the feed, which [dateutil] reads the same way. *)
Definition clock_parse (s : string) : res datetime :=
  match s with
  | String h1 (String h2 (String c (String m1 (String m2 "")))) =>
      if is_digit h1 && is_digit h2 && Ascii.eqb c ":" && is_digit m1 && is_digit m2
      then match make_datetime (10 * digit_value h1 + digit_value h2)
                               (10 * digit_value m1 + digit_value m2) with
           | Some t => Ok t
           | None => Raise ParserError
           end
      else Raise ParserError
  | _ => Raise ParserError
  end.

Definition sample_stations : gmap string string :=
  <["KGX" := "London Kings Cross"]> (<["PAD" := "London Paddington"]> ∅).

Definition sample_sensor : NationalrailSensor :=
  init "time_offset" "time_window" (PStr "National Rail") "PAD" "KGX" "key" "5" "120".

Definition dict (l : list (string * pyval)) : pyval := PDict (list_to_map l).

Definition sample_service : pyval :=
  dict [("std", PStr "10:15"); ("etd", PStr "10:21");
        ("subsequentCallingPoints",
         PList [dict [("callingPoint",
                       PList [dict [("locationName", PStr "Reading")];
                              dict [("locationName", PStr "Slough")]])]])].

Definition sample_reply (services : list pyval) : pyval :=
  dict [("generatedAt", PStr "2024-01-01T10:00:00");
        ("locationName", PStr "London Paddington");
        ("filterLocationName", PStr "London Kings Cross");
        ("trainServices", PList services)].

(** A computation leaves an attribute of the sensor alone. *)
Definition preserves {A B} (f : NationalrailSensor -> B) (m : M A) : Prop :=
  forall s, f (snd (m s)) = f s.

(** What a failed refresh leaves behind: a normal return, the sentinel
    message as display state, and the snapshot of before. *)
Definition failed_with (msg : string) (self : NationalrailSensor)
    (out : res unit * NationalrailSensor) : Prop :=
  fst out = Ok tt /\
  state (snd out) = Some msg /\
  last_data (snd out) = last_data self /\
  service_data (snd out) = service_data self.

Definition empty_services_reply : pyval := sample_reply [].

(** A primary service without an estimated time. *)
Definition reply_without_etd : pyval :=
  sample_reply [dict [("std", PStr "10:15");
                      ("subsequentCallingPoints", PList [dict [("callingPoint", PList [])]])]].

(** A primary service without the calling points that follow. *)
Definition service_without_calling_points : pyval :=
  dict [("std", PStr "10:15"); ("etd", PStr "On time")].

(** The names a comprehension over dictionaries collects. *)
Definition location_names (points : list (gmap string pyval)) : list pyval :=
  (fun point => default (PStr "") (point !! "locationName")) <$> points.

(** The attributes reported before the target station is looked up. *)
Definition base_attributes (self : NationalrailSensor) (d svc : gmap string pyval)
    (ln fn : pyval) (services : list pyval) (names : pyval) : gmap string pyval :=
  <["station_code" := PStr (station self)]>
    (<["offset" := PStr (time_offset self)]>
       (<["calling_points" := names]>
          (<["services" := PList (tail services)]>
             (<["service" := PDict (delete "subsequentCallingPoints" svc)]>
                (<["destination_name" := fn]>
                   (<["station_name" := ln]>
                      (<["message" := default (PStr "") (d !! "nrccMessages")]>
                         (<["last_refresh" := default (PStr "") (d !! "generatedAt")]>
                            ∅)))))))).

(** ** The display name *)

Definition ValueError : pyexc := mk_exc ExceptionFamily "ValueError".

Section DisplayName.

(** The builtin [int] on a string, with what it raises on a string that is
    no integer literal; and [format(v, "")] of a value that is no string,
    as a replacement field of an f-string takes it. *)
Variable py_int : string -> res Z.
Variable py_format : pyval -> string.

(** A replacement field [{v}]: a string is inserted as it is. *)
Definition replacement_field (v : pyval) : string :=
  match v with
  | PStr s => s
  | _ => py_format v
  end.

(** The property [name]: the f-string is built first, then the offset is
    converted and tested. *)
Definition name (self : NationalrailSensor) : res string :=
  let name := "Trains " ++ replacement_field (station_name self)
              ++ " to " ++ replacement_field (destination_name self) in
  let? offset := py_int (time_offset self) in
  if negb (Z.eqb offset 0)
  then Ok (name ++ " (" ++ time_offset self ++ "m walk)")
  else Ok name.

End DisplayName.

(** An instance of [int] for running the model: the value of a non-empty
    string of decimal digits, which [int] reads the same way. *)
Fixpoint decimal_value (acc : Z) (s : string) : res Z :=
  match s with
  | "" => Ok acc
  | String c r =>
      if is_digit c
      then decimal_value (10 * acc + Z.of_nat (digit_value c)) r
      else Raise ValueError
  end.

Definition decimal_int (s : string) : res Z :=
  match s with
  | "" => Raise ValueError
  | _ => decimal_value 0 s
  end.

(** ** Auxiliary notions for the properties *)

(** A request the [try] of [async_update] turns into a sentinel: a falsy
    result or an exception under [Exception]. *)
Definition no_data_or_error (request : res pyval) : bool :=
  match request with
  | Ok result => negb (truthy result)
  | Raise e => isinstance_Exception e
  end.

(** The three sentinel messages. *)
Definition is_sentinel (msg : string) : Prop :=
  msg = "There was no reply from National Rail Trains for this service" \/
  msg = "There was an internal error for this service" \/
  msg = "Cannot interpret XML for this service from National Rail".

(** What [last_data] can hold: the empty dictionary of the constructor,
    or a result a refresh went through, which has both names and a list
    of services whose first record is a dictionary with an [etd] entry. *)
Definition snapshot_shape (v : pyval) : Prop :=
  v = PDict ∅ \/
  exists (d svc : gmap string pyval) (ln fn etd : pyval) (rest : list pyval),
    v = PDict d /\
    d !! "locationName" = Some ln /\
    d !! "filterLocationName" = Some fn /\
    d !! "trainServices" = Some (PList (PDict svc :: rest)) /\
    svc !! "etd" = Some etd.

Fixpoint has_underscore (s : string) : bool :=
  match s with
  | "" => false
  | String c r => Ascii.eqb c "_" || has_underscore r
  end.

(** A destination of the configuration: a code or [None]. *)
Definition destination_value (o : option string) : pyval :=
  match o with
  | Some d => PStr d
  | None => PNone
  end.

Definition sample_config : gmap string pyval :=
  list_to_map [("arrival", PStr "PAD");
               ("destinations", PList [PStr "KGX"; PNone; PStr "RDG"]);
               ("api_key", PStr "key"); ("time_offset", PStr "5");
               ("time_window", PStr "120")].

Definition delayed_reply : pyval :=
  sample_reply [dict [("std", PStr "10:15"); ("etd", PStr "Delayed")]].

(** The keys reported for every filled snapshot, and the two that depend
    on the table of stations. *)
Definition base_keys : gset string :=
  list_to_set ["last_refresh"; "message"; "station_name"; "destination_name"; "service";
               "services"; "calling_points"; "offset"; "station_code"].

Definition target_keys : gset string :=
  list_to_set ["target_station_name"; "target_station_code"].

(** * Properties *)

Example sample_refresh :
  state (snd (async_update clock_parse (Ok (sample_reply [sample_service])) sample_sensor))
  = Some "10:21".
Proof. vm_compute. reflexivity. Qed.

(** ** Failed refreshes *)

Lemma truthy_dict_with_key (d : gmap string pyval) k v :
  d !! k = Some v -> truthy (PDict d) = true.
Proof.
  intros Hk. cbn. rewrite bool_decide_eq_false_2; [reflexivity|].
  intros ->. rewrite lookup_empty in Hk. discriminate.
Qed.

Section Refresh.

Variable parse : string -> res datetime.
Variable self : NationalrailSensor.

Lemma async_update_no_reply result :
  truthy result = false ->
  async_update parse (Ok result) self
  = (Ok tt, set__state
              (Some "There was no reply from National Rail Trains for this service") self).
Proof. intros H. unfold async_update. rewrite H. reflexivity. Qed.

Lemma async_update_transport_error e :
  isinstance_OSError e = true ->
  async_update parse (Raise e) self
  = (Ok tt, set__state (Some "There was an internal error for this service") self).
Proof. intros H. unfold async_update. rewrite H. reflexivity. Qed.

Lemma async_update_other_error e :
  isinstance_OSError e = false -> isinstance_Exception e = true ->
  async_update parse (Raise e) self
  = (Ok tt, set__state
              (Some "Cannot interpret XML for this service from National Rail") self).
Proof. intros H1 H2. unfold async_update. rewrite H1, H2. reflexivity. Qed.

(** An exception outside [Exception] passes through the refresh. *)
Lemma async_update_base_exception e :
  isinstance_Exception e = false ->
  async_update parse (Raise e) self = (Raise e, self).
Proof.
  intros H. unfold async_update.
  destruct e as [[] c]; try discriminate H. reflexivity.
Qed.

(** The statements after the [try], on a dictionary that has both names
    and a list of services. *)
Lemma async_update_names_then_services (d : gmap string pyval) ln fn services :
  d !! "locationName" = Some ln ->
  d !! "filterLocationName" = Some fn ->
  d !! "trainServices" = Some services ->
  async_update parse (Ok (PDict d)) self
  = let named := set_destination_name fn (set_station_name ln self) in
    match py_getitem_0 services with
    | Raise e => (Raise e, named)
    | Ok service =>
        let served := set_service_data service named in
        match res_bind (next_train_time service) (parser_parse parse) with
        | Raise e => (Raise e, served)
        | Ok t => (Ok tt, set_last_data (PDict d) (set__state (Some (strftime_HM t)) served))
        end
    end.
Proof.
  intros Hln Hfn Hts. unfold async_update.
  rewrite (truthy_dict_with_key d _ _ Hln). cbn [negb].
  unfold interpret, bind, lift, assign, read, py_getitem at 1 2, py_get at 1.
  rewrite Hln, Hfn, Hts. cbn [from_option id fst snd].
  destruct (py_getitem_0 services) as [service|e]; [|reflexivity].
  cbn [service_data set_service_data].
  destruct (next_train_time service) as [v|e]; [|reflexivity].
  cbn [res_bind]. destruct (parser_parse parse v); reflexivity.
Qed.

End Refresh.

(** C1: a refresh whose request returns a falsy result, raises an
    exception under [OSError], or raises any other exception under
    [Exception], returns normally with the corresponding sentinel message
    as display state and with [last_data] and [service_data] as they were
    before the call. *)
Theorem refresh_failure_sentinel (parse : string -> res datetime) (self : NationalrailSensor) :
  (forall result, truthy result = false ->
     failed_with "There was no reply from National Rail Trains for this service" self
       (async_update parse (Ok result) self)) /\
  (forall e, isinstance_OSError e = true ->
     failed_with "There was an internal error for this service" self
       (async_update parse (Raise e) self)) /\
  (forall e, isinstance_OSError e = false -> isinstance_Exception e = true ->
     failed_with "Cannot interpret XML for this service from National Rail" self
       (async_update parse (Raise e) self)).
Proof.
  split; [|split]; intros.
  - rewrite async_update_no_reply by assumption. repeat split.
  - rewrite async_update_transport_error by assumption. repeat split.
  - rewrite async_update_other_error by assumption. repeat split.
Qed.

Lemma refresh_failure_sentinel_witness :
  failed_with "There was no reply from National Rail Trains for this service" sample_sensor
    (async_update clock_parse (Ok (PDict ∅)) sample_sensor) /\
  failed_with "There was an internal error for this service" sample_sensor
    (async_update clock_parse (Raise (mk_exc OSErrorFamily "ConnectionError")) sample_sensor) /\
  failed_with "Cannot interpret XML for this service from National Rail" sample_sensor
    (async_update clock_parse (Raise (mk_exc ExceptionFamily "ExpatError")) sample_sensor).
Proof.
  destruct (refresh_failure_sentinel clock_parse sample_sensor) as (Hnone & Hos & Hexc).
  split; [|split].
  - apply Hnone. reflexivity.
  - apply Hos. reflexivity.
  - apply Hexc; reflexivity.
Defined.

(** ** Refreshes that interpret a result *)

(** C9: a truthy result that has both names and an empty [trainServices]
    list makes the refresh raise [IndexError]; by then [station_name] and
    [destination_name] hold the fetched names, while [last_data],
    [service_data] (and the display state) are those of before. *)
Theorem refresh_empty_services_partial (parse : string -> res datetime)
    (self : NationalrailSensor) (d : gmap string pyval) (ln fn : pyval) :
  d !! "locationName" = Some ln ->
  d !! "filterLocationName" = Some fn ->
  d !! "trainServices" = Some (PList []) ->
  let out := async_update parse (Ok (PDict d)) self in
  fst out = Raise IndexError /\
  station_name (snd out) = ln /\
  destination_name (snd out) = fn /\
  last_data (snd out) = last_data self /\
  service_data (snd out) = service_data self /\
  state (snd out) = state self.
Proof.
  intros Hln Hfn Hts out. subst out.
  rewrite (async_update_names_then_services _ _ _ _ _ _ Hln Hfn Hts).
  cbn. repeat split.
Qed.

Lemma refresh_empty_services_partial_witness :
  let out := async_update clock_parse (Ok empty_services_reply) sample_sensor in
  fst out = Raise IndexError /\
  station_name (snd out) = PStr "London Paddington" /\
  destination_name (snd out) = PStr "London Kings Cross" /\
  last_data (snd out) = last_data sample_sensor /\
  service_data (snd out) = service_data sample_sensor /\
  state (snd out) = state sample_sensor.
Proof.
  apply (refresh_empty_services_partial clock_parse sample_sensor
           (list_to_map [("generatedAt", PStr "2024-01-01T10:00:00");
                         ("locationName", PStr "London Paddington");
                         ("filterLocationName", PStr "London Kings Cross");
                         ("trainServices", PList [])]));
    vm_compute; reflexivity.
Defined.

(** ** The chosen departure time *)

(** With an [etd] entry the choice is as intended: the entry itself unless
    it is the string [On time], and then the [std] entry. *)
Lemma next_train_time_present (svc : gmap string pyval) (etd : pyval) :
  svc !! "etd" = Some etd ->
  next_train_time (PDict svc)
  = if py_ne_str etd "On time" then Ok etd else py_getitem (PDict svc) "std".
Proof.
  intros H. unfold next_train_time, py_get, py_getitem. rewrite H. cbn.
  destruct (py_ne_str etd "On time"); reflexivity.
Qed.

Lemma next_train_time_strings (svc : gmap string pyval) (etd std : string) :
  svc !! "etd" = Some (PStr etd) ->
  svc !! "std" = Some (PStr std) ->
  next_train_time (PDict svc)
  = Ok (PStr (if String.eqb etd "On time" then std else etd)).
Proof.
  intros He Hs. rewrite (next_train_time_present _ _ He). cbn.
  destruct (String.eqb etd "On time"); cbn; [rewrite Hs|]; reflexivity.
Qed.

(** Without an [etd] entry the default of the lookup, [On Time], differs
    from the literal [On time] it is compared with, so the branch taken
    subscripts the missing entry. *)
Lemma next_train_time_absent (svc : gmap string pyval) :
  svc !! "etd" = None -> next_train_time (PDict svc) = Raise KeyError.
Proof.
  intros H. unfold next_train_time, py_get, py_getitem. rewrite H. reflexivity.
Qed.

(** C3: on a primary service without an estimated time the chosen
    departure time is not the scheduled one: the choice raises [KeyError],
    and so does the refresh, with the display state left as it was. *)
Theorem next_train_time_without_etd :
  (forall svc : gmap string pyval,
     next_train_time (PDict (delete "etd" svc)) = Raise KeyError) /\
  (let out := async_update clock_parse (Ok reply_without_etd) sample_sensor in
   fst out = Raise KeyError /\ state (snd out) = state sample_sensor).
Proof.
  split.
  - intros svc. apply next_train_time_absent, lookup_delete_eq.
  - vm_compute. split; reflexivity.
Qed.

(** ** The display state *)

Lemma is_digit_digit (n : nat) : is_digit (digit n) = true.
Proof.
  unfold digit. pose proof (Nat.mod_upper_bound n 10 ltac:(lia)) as H.
  remember (n mod 10) as k eqn:E. clear E.
  do 10 (destruct k as [|k]; [reflexivity|]). lia.
Qed.

Lemma strftime_HM_shape (t : datetime) : is_HHMM (strftime_HM t) = true.
Proof.
  cbv [strftime_HM two_digits String.append is_HHMM].
  rewrite !is_digit_digit. reflexivity.
Qed.

Section WellFormed.

Variable parse : string -> res datetime.
Variable self : NationalrailSensor.

(** A result as the client documents it: both names, and a list of
    services whose first record has both times as strings. *)
Variables (d svc : gmap string pyval) (ln fn : pyval) (rest : list pyval).
Variables (etd std : string) (t : datetime).
Hypothesis Hln : d !! "locationName" = Some ln.
Hypothesis Hfn : d !! "filterLocationName" = Some fn.
Hypothesis Hts : d !! "trainServices" = Some (PList (PDict svc :: rest)).
Hypothesis Hetd : svc !! "etd" = Some (PStr etd).
Hypothesis Hstd : svc !! "std" = Some (PStr std).
Hypothesis Hparse : parse (if String.eqb etd "On time" then std else etd) = Ok t.

Lemma async_update_well_formed :
  async_update parse (Ok (PDict d)) self
  = (Ok tt,
     set_last_data (PDict d)
       (set__state (Some (strftime_HM t))
          (set_service_data (PDict svc)
             (set_destination_name fn (set_station_name ln self))))).
Proof.
  rewrite (async_update_names_then_services _ _ _ _ _ _ Hln Hfn Hts).
  cbn [py_getitem_0]. rewrite (next_train_time_strings _ _ _ Hetd Hstd).
  cbn [res_bind parser_parse]. rewrite Hparse. reflexivity.
Qed.

End WellFormed.

(** C5: on a result with both names and a non-empty service list whose
    first record has both times, the chosen one parseable, the refresh
    returns normally, the display state is the chosen time formatted as
    [HH:MM], and [last_data] is the new result itself, whatever it was
    before ([service_data] is the first record). *)
Theorem refresh_success (parse : string -> res datetime) (self : NationalrailSensor)
    (d svc : gmap string pyval) (ln fn : pyval) (rest : list pyval)
    (etd std : string) (t : datetime) :
  d !! "locationName" = Some ln ->
  d !! "filterLocationName" = Some fn ->
  d !! "trainServices" = Some (PList (PDict svc :: rest)) ->
  svc !! "etd" = Some (PStr etd) ->
  svc !! "std" = Some (PStr std) ->
  parse (if String.eqb etd "On time" then std else etd) = Ok t ->
  let out := async_update parse (Ok (PDict d)) self in
  fst out = Ok tt /\
  state (snd out) = Some (strftime_HM t) /\
  is_HHMM (strftime_HM t) = true /\
  last_data (snd out) = PDict d /\
  service_data (snd out) = PDict svc.
Proof.
  intros Hln Hfn Hts Hetd Hstd Hparse out. subst out.
  rewrite (async_update_well_formed parse self d svc ln fn rest etd std t)
    by assumption.
  cbn. repeat split. apply strftime_HM_shape.
Qed.

Lemma refresh_success_witness :
  let out := async_update clock_parse (Ok (sample_reply [sample_service])) sample_sensor in
  fst out = Ok tt /\
  state (snd out) = Some "10:21" /\
  is_HHMM "10:21" = true /\
  last_data (snd out) = sample_reply [sample_service] /\
  service_data (snd out) = sample_service.
Proof.
  apply (refresh_success clock_parse sample_sensor
           (list_to_map [("generatedAt", PStr "2024-01-01T10:00:00");
                         ("locationName", PStr "London Paddington");
                         ("filterLocationName", PStr "London Kings Cross");
                         ("trainServices", PList [sample_service])])
           (list_to_map [("std", PStr "10:15"); ("etd", PStr "10:21");
                         ("subsequentCallingPoints",
                          PList [dict [("callingPoint",
                                        PList [dict [("locationName", PStr "Reading")];
                                               dict [("locationName", PStr "Slough")]])]])])
           (PStr "London Paddington") (PStr "London Kings Cross") []
           "10:21" "10:15" (mk_datetime 10 21 eq_refl eq_refl));
    vm_compute; reflexivity.
Defined.

(** ** Normal return *)

(** C2, as the code has it: the refresh returns normally when the request
    returns a falsy result, when it raises an exception under [Exception],
    and when it returns a result with both names and a non-empty service
    list whose first record has both times, the chosen one parseable. *)
Theorem refresh_returns_normally (parse : string -> res datetime) (self : NationalrailSensor) :
  (forall result, truthy result = false ->
     fst (async_update parse (Ok result) self) = Ok tt) /\
  (forall e, isinstance_Exception e = true ->
     fst (async_update parse (Raise e) self) = Ok tt) /\
  (forall (d svc : gmap string pyval) ln fn rest etd std t,
     d !! "locationName" = Some ln ->
     d !! "filterLocationName" = Some fn ->
     d !! "trainServices" = Some (PList (PDict svc :: rest)) ->
     svc !! "etd" = Some (PStr etd) ->
     svc !! "std" = Some (PStr std) ->
     parse (if String.eqb etd "On time" then std else etd) = Ok t ->
     fst (async_update parse (Ok (PDict d)) self) = Ok tt).
Proof.
  split; [|split].
  - intros result H. rewrite async_update_no_reply by assumption. reflexivity.
  - intros e H. destruct (isinstance_OSError e) eqn:Hos.
    + rewrite async_update_transport_error by assumption. reflexivity.
    + rewrite async_update_other_error by assumption. reflexivity.
  - intros d svc ln fn rest etd std t Hln Hfn Hts Hetd Hstd Hparse.
    rewrite (async_update_well_formed parse self d svc ln fn rest etd std t)
      by assumption.
    reflexivity.
Qed.

Lemma refresh_returns_normally_witness :
  fst (async_update clock_parse (Ok PNone) sample_sensor) = Ok tt /\
  fst (async_update clock_parse (Raise (mk_exc OSErrorFamily "TimeoutError")) sample_sensor)
  = Ok tt /\
  fst (async_update clock_parse (Ok (sample_reply [service_without_calling_points]))
         sample_sensor) = Ok tt.
Proof.
  destruct (refresh_returns_normally clock_parse sample_sensor) as (Hnone & Hexc & Hok).
  split; [|split].
  - apply Hnone. reflexivity.
  - apply Hexc. reflexivity.
  - apply (Hok (list_to_map [("generatedAt", PStr "2024-01-01T10:00:00");
                             ("locationName", PStr "London Paddington");
                             ("filterLocationName", PStr "London Kings Cross");
                             ("trainServices", PList [service_without_calling_points])])
               (list_to_map [("std", PStr "10:15"); ("etd", PStr "On time")])
               (PStr "London Paddington") (PStr "London Kings Cross") []
               "On time" "10:15" (mk_datetime 10 15 eq_refl eq_refl));
      vm_compute; reflexivity.
Defined.

(** C2 as stated fails: a truthy result with an empty service list makes
    the refresh raise [IndexError] to its caller. *)
Lemma refresh_can_raise :
  fst (async_update clock_parse (Ok empty_services_reply) sample_sensor) = Raise IndexError.
Proof. vm_compute. reflexivity. Qed.

(** ** The attribute mapping *)

(** The first two statements of [extra_state_attributes] run before the
    test on the snapshot: a primary service that is a dictionary without
    [subsequentCallingPoints] ends the property with [KeyError]. *)
Lemma attributes_pop_missing (STATIONS : gmap string string) (self : NationalrailSensor)
    (svc : gmap string pyval) :
  service_data self = PDict svc ->
  svc !! "subsequentCallingPoints" = None ->
  extra_state_attributes STATIONS self = Raise KeyError.
Proof.
  intros Hsd Hnone. unfold extra_state_attributes.
  rewrite Hsd. cbn [py_copy res_bind py_pop]. rewrite Hnone. reflexivity.
Qed.

(** With an empty snapshot and a primary service the pop succeeds on,
    only [last_refresh] is reported. *)
Lemma attributes_empty_snapshot (STATIONS : gmap string string) (self : NationalrailSensor)
    (svc : gmap string pyval) (groups : pyval) :
  last_data self = PDict ∅ ->
  service_data self = PDict svc ->
  svc !! "subsequentCallingPoints" = Some groups ->
  extra_state_attributes STATIONS self = Ok {[ "last_refresh" := PStr "" ]}.
Proof.
  intros Hld Hsd Hg. unfold extra_state_attributes.
  rewrite Hsd, Hld. cbn [py_copy res_bind py_pop]. rewrite Hg.
  cbn [res_bind py_get py_len snd]. rewrite lookup_empty, map_size_empty.
  reflexivity.
Qed.

(** C4: on a sensor as the constructor leaves it, [extra_state_attributes]
    does not return the one-key mapping: it raises [KeyError], for every
    station, destination and offset. *)
Theorem attributes_fresh_sensor (CONF_TIME_OFFSET CONF_TIME_WINDOW : string)
    (STATIONS : gmap string string) (name : pyval)
    (station destination api_key time_offset time_window : string) :
  extra_state_attributes STATIONS
    (init CONF_TIME_OFFSET CONF_TIME_WINDOW name station destination api_key
       time_offset time_window)
  = Raise KeyError.
Proof. apply (attributes_pop_missing _ _ ∅); [reflexivity | apply lookup_empty]. Qed.

Lemma comprehension_location_names (points : list (gmap string pyval)) :
  comprehension (fun callpoint => py_get callpoint "locationName" (PStr ""))
    (PDict <$> points)
  = Ok (location_names points).
Proof.
  induction points as [|point points IH]; [reflexivity|].
  cbn [fmap list_fmap comprehension py_get res_bind].
  change (list_fmap _ _ PDict points) with (PDict <$> points).
  rewrite IH. reflexivity.
Qed.

(** The calling points of a primary service whose first group of
    subsequent calling points lists dictionaries: their location names, in
    the order of the list. *)
Lemma calling_points_present (svc group : gmap string pyval) (groups : list pyval)
    (points : list (gmap string pyval)) :
  svc !! "subsequentCallingPoints" = Some (PList (PDict group :: groups)) ->
  group !! "callingPoint" = Some (PList (PDict <$> points)) ->
  calling_points (PDict svc) = Ok (PList (location_names points)).
Proof.
  intros Hg Hp. unfold calling_points, py_get at 1. rewrite Hg.
  cbn [from_option id res_bind py_getitem_0 py_get]. rewrite Hp.
  cbn [from_option id res_bind py_iter]. rewrite comprehension_location_names.
  reflexivity.
Qed.

(** The comprehension itself copes with a missing field: its default is a
    list with one empty group, which has no calling points. *)
Lemma calling_points_absent (svc : gmap string pyval) :
  svc !! "subsequentCallingPoints" = None ->
  calling_points (PDict svc) = Ok (PList []).
Proof.
  intros Hg. unfold calling_points, py_get at 1. rewrite Hg.
  cbn [from_option id res_bind py_getitem_0 py_get]. rewrite lookup_empty.
  reflexivity.
Qed.

(** The whole mapping on a snapshot that a refresh has filled, when the
    primary service has the popped field. *)
Lemma attributes_filled_snapshot (STATIONS : gmap string string) (self : NationalrailSensor)
    (d svc : gmap string pyval) (ln fn groups names : pyval) (services : list pyval) :
  last_data self = PDict d ->
  service_data self = PDict svc ->
  d !! "locationName" = Some ln ->
  d !! "filterLocationName" = Some fn ->
  d !! "trainServices" = Some (PList services) ->
  svc !! "subsequentCallingPoints" = Some groups ->
  calling_points (PDict svc) = Ok names ->
  extra_state_attributes STATIONS self
  = Ok (let attributes := base_attributes self d svc ln fn services names in
        match STATIONS !! destination self with
        | Some station_name =>
            <["target_station_code" := PStr (destination self)]>
              (<["target_station_name" := PStr station_name]> attributes)
        | None => attributes
        end).
Proof.
  intros Hld Hsd Hln Hfn Hts Hg Hcp. unfold extra_state_attributes.
  rewrite Hsd, Hld. cbn [py_copy res_bind py_pop]. rewrite Hg.
  cbn [res_bind py_get py_len snd py_getitem]. rewrite Hln, Hfn, Hts, Hcp.
  assert (size d <> 0) as Hsize.
  { intros Hz. apply map_size_empty_inv in Hz. subst d.
    rewrite lookup_empty in Hln. discriminate. }
  destruct (size d) as [|n]; [congruence|].
  cbn [Nat.eqb res_bind py_slice_from_1].
  destruct (STATIONS !! destination self); reflexivity.
Qed.

(** After a refresh that filled the snapshot, the calling points reported
    are the location names of the first group, in order. *)
Lemma attributes_calling_points (STATIONS : gmap string string) (self : NationalrailSensor)
    (d svc group : gmap string pyval) (ln fn : pyval) (services groups : list pyval)
    (points : list (gmap string pyval)) :
  last_data self = PDict d ->
  service_data self = PDict svc ->
  d !! "locationName" = Some ln ->
  d !! "filterLocationName" = Some fn ->
  d !! "trainServices" = Some (PList services) ->
  svc !! "subsequentCallingPoints" = Some (PList (PDict group :: groups)) ->
  group !! "callingPoint" = Some (PList (PDict <$> points)) ->
  exists attributes,
    extra_state_attributes STATIONS self = Ok attributes /\
    attributes !! "calling_points" = Some (PList (location_names points)).
Proof.
  intros Hld Hsd Hln Hfn Hts Hg Hp.
  pose proof (calling_points_present _ _ _ _ Hg Hp) as Hcp.
  rewrite (attributes_filled_snapshot STATIONS self d svc ln fn _ _ services
             Hld Hsd Hln Hfn Hts Hg Hcp).
  eexists. split; [reflexivity|].
  unfold base_attributes. cbn zeta.
  destruct (STATIONS !! destination self); simplify_map_eq; reflexivity.
Qed.

(** Whenever the filled snapshot is reported, the two target-station keys
    are there together, with the looked-up name and the configured code,
    exactly when the destination is in the table. *)
Lemma attributes_target_station_keys (STATIONS : gmap string string) (self : NationalrailSensor)
    (d svc : gmap string pyval) (ln fn groups names : pyval) (services : list pyval) :
  last_data self = PDict d ->
  service_data self = PDict svc ->
  d !! "locationName" = Some ln ->
  d !! "filterLocationName" = Some fn ->
  d !! "trainServices" = Some (PList services) ->
  svc !! "subsequentCallingPoints" = Some groups ->
  calling_points (PDict svc) = Ok names ->
  exists attributes,
    extra_state_attributes STATIONS self = Ok attributes /\
    attributes !! "target_station_name" = PStr <$> STATIONS !! destination self /\
    attributes !! "target_station_code"
    = (fun _ => PStr (destination self)) <$> STATIONS !! destination self.
Proof.
  intros Hld Hsd Hln Hfn Hts Hg Hcp.
  rewrite (attributes_filled_snapshot STATIONS self d svc ln fn _ _ services
             Hld Hsd Hln Hfn Hts Hg Hcp).
  eexists. split; [reflexivity|].
  unfold base_attributes. cbn zeta.
  destruct (STATIONS !! destination self); simplify_map_eq; split; reflexivity.
Qed.

(** The refresh on the reply whose primary service has no
    [subsequentCallingPoints]: it succeeds, whatever the sensor. *)
Lemma refresh_without_calling_points (self : NationalrailSensor) :
  async_update clock_parse (Ok (sample_reply [service_without_calling_points])) self
  = (Ok tt,
     set_last_data (sample_reply [service_without_calling_points])
       (set__state (Some "10:15")
          (set_service_data service_without_calling_points
             (set_destination_name (PStr "London Kings Cross")
                (set_station_name (PStr "London Paddington") self))))).
Proof.
  apply (async_update_well_formed clock_parse self _
           (list_to_map [("std", PStr "10:15"); ("etd", PStr "On time")])
           (PStr "London Paddington") (PStr "London Kings Cross") []
           "On time" "10:15" (mk_datetime 10 15 eq_refl eq_refl));
    vm_compute; reflexivity.
Qed.

(** C6: when the primary service has no [subsequentCallingPoints], the
    attributes are not reported with an empty [calling_points]: the
    property raises [KeyError], also right after a refresh that succeeded. *)
Theorem attributes_without_calling_points :
  (forall (STATIONS : gmap string string) self (svc : gmap string pyval),
     extra_state_attributes STATIONS
       (set_service_data (PDict (delete "subsequentCallingPoints" svc)) self)
     = Raise KeyError) /\
  (let out := async_update clock_parse
                (Ok (sample_reply [service_without_calling_points])) sample_sensor in
   fst out = Ok tt /\
   extra_state_attributes sample_stations (snd out) = Raise KeyError).
Proof.
  split.
  - intros STATIONS self svc.
    apply (attributes_pop_missing _ _ (delete "subsequentCallingPoints" svc));
      [reflexivity | apply lookup_delete_eq].
  - rewrite refresh_without_calling_points. split; [reflexivity|].
    vm_compute. reflexivity.
Qed.

(** C7: a successful refresh does not ensure the target-station keys for a
    destination of the table: on a primary service without
    [subsequentCallingPoints] the property raises [KeyError] and reports
    nothing, whatever the table and the destination. *)
Theorem attributes_target_station_lost :
  sample_stations !! destination sample_sensor = Some "London Kings Cross" /\
  (forall (STATIONS : gmap string string) self,
     let out := async_update clock_parse
                  (Ok (sample_reply [service_without_calling_points])) self in
     fst out = Ok tt /\
     state (snd out) = Some "10:15" /\
     extra_state_attributes STATIONS (snd out) = Raise KeyError).
Proof.
  split; [vm_compute; reflexivity|].
  intros STATIONS self out. subst out.
  rewrite refresh_without_calling_points.
  split; [reflexivity|]. split; [reflexivity|].
  apply (attributes_pop_missing _ _
           (list_to_map [("std", PStr "10:15"); ("etd", PStr "On time")]));
    [reflexivity | vm_compute; reflexivity].
Qed.

(** ** The unique identifier *)

Section Preservation.

Context {C : Type} (f : NationalrailSensor -> C).

Lemma preserves_lift {A} (r : res A) : preserves f (lift r).
Proof. intros s. reflexivity. Qed.

Lemma preserves_read {A} (g : NationalrailSensor -> A) : preserves f (read g).
Proof. intros s. reflexivity. Qed.

Lemma preserves_assign (g : NationalrailSensor -> NationalrailSensor) :
  (forall s, f (g s) = f s) -> preserves f (assign g).
Proof. intros Hg s. apply Hg. Qed.

Lemma preserves_bind {A B} (m : M A) (k : A -> M B) :
  preserves f m -> (forall a, preserves f (k a)) -> preserves f (bind m k).
Proof.
  intros Hm Hk s. unfold bind. specialize (Hm s).
  destruct (m s) as [[a|e] s']; cbn [snd] in *.
  - rewrite Hk. exact Hm.
  - exact Hm.
Qed.

End Preservation.

Ltac preserves_steps :=
  repeat first
    [ apply preserves_bind; [|intros ?]
    | apply preserves_lift
    | apply preserves_read
    | apply preserves_assign; intros []; reflexivity ].

(** No statement of [async_update] assigns [_name]. *)
Lemma async_update_keeps_name (parse : string -> res datetime) (request : res pyval) :
  preserves _name (async_update parse request).
Proof.
  unfold async_update. destruct request as [result|e].
  - destruct (negb (truthy result)); [preserves_steps|].
    unfold interpret. preserves_steps.
  - destruct (isinstance_OSError e); [preserves_steps|].
    destruct (isinstance_Exception e); preserves_steps.
Qed.

Lemma updates_keep_name (parse : string -> res datetime) (requests : list (res pyval))
    (self : NationalrailSensor) :
  unique_id (updates parse requests self) = unique_id self.
Proof.
  revert self. induction requests as [|request rest IH]; intros self; [reflexivity|].
  cbn [updates]. rewrite IH. apply async_update_keeps_name.
Qed.

(** C8: the unique identifier of a sensor constructed from station [s],
    destination [d] and offset [o] is [s ++ "_" ++ d ++ "_" ++ o]; it is
    the same after any run of refreshes, whatever their requests did; and
    for "PAD", "KGX", "5" it is "PAD_KGX_5". *)
Theorem unique_id_stable (CONF_TIME_OFFSET CONF_TIME_WINDOW : string)
    (parse : string -> res datetime) (name : pyval) (s d api_key o time_window : string)
    (requests : list (res pyval)) :
  let sensor := init CONF_TIME_OFFSET CONF_TIME_WINDOW name s d api_key o time_window in
  unique_id sensor = s ++ "_" ++ d ++ "_" ++ o /\
  unique_id (updates parse requests sensor) = s ++ "_" ++ d ++ "_" ++ o /\
  unique_id (init CONF_TIME_OFFSET CONF_TIME_WINDOW name "PAD" "KGX" api_key "5" time_window)
  = "PAD_KGX_5".
Proof.
  intros sensor. split; [reflexivity|]. split; [|reflexivity].
  rewrite updates_keep_name. reflexivity.
Qed.

(** ** Platform setup *)

(** C10: on every configuration dictionary [async_setup_platform] raises
    [TypeError] at the subscript of the bound method [config.get]; no list
    of sensors reaches [async_add_entities]. *)
Theorem async_setup_platform_raises
    (CONF_API_KEY CONF_ARRIVAL CONF_DESTINATIONS CONF_TIME_OFFSET CONF_TIME_WINDOW : string)
    (config : gmap string pyval) :
  async_setup_platform CONF_API_KEY CONF_ARRIVAL CONF_DESTINATIONS
    CONF_TIME_OFFSET CONF_TIME_WINDOW (PDict config)
  = Raise TypeError.
Proof. reflexivity. Qed.

(** The other entry point builds the sensors. *)
Example async_setup_entry_sample :
  unique_id <$>
    match async_setup_entry "api_key" "arrival" "destinations" "time_offset" "time_window"
            "National Rail"
            (list_to_map [("arrival", PStr "PAD");
                          ("destinations", PList [PStr "KGX"; PNone; PStr "RDG"]);
                          ("api_key", PStr "key"); ("time_offset", PStr "5");
                          ("time_window", PStr "120")]) with
    | Ok sensors => sensors
    | Raise _ => []
    end
  = ["PAD_KGX_5"; "PAD_RDG_5"].
Proof. vm_compute. reflexivity. Qed.

(** * Further properties *)

(** ** Setting up from a configuration entry *)

Section SetupEntry.

Variables CONF_API_KEY CONF_ARRIVAL CONF_DESTINATIONS : string.
Variables CONF_TIME_OFFSET CONF_TIME_WINDOW DEFAULT_NAME : string.

Local Abbreviation setup_entry :=
  (async_setup_entry CONF_API_KEY CONF_ARRIVAL CONF_DESTINATIONS
     CONF_TIME_OFFSET CONF_TIME_WINDOW DEFAULT_NAME).
Local Abbreviation new_sensor := (init CONF_TIME_OFFSET CONF_TIME_WINDOW).

Lemma build_sensors_codes (name : pyval) (s k o w : string) (dests : list (option string)) :
  build_sensors CONF_TIME_OFFSET CONF_TIME_WINDOW name (PStr s) (PStr k) (PStr o) (PStr w)
    (destination_value <$> dests)
  = Ok ((fun d => new_sensor name s d k o w) <$> omap id dests).
Proof.
  induction dests as [|[d|] dests IH]; [reflexivity| |].
  - cbn [fmap list_fmap destination_value build_sensors construct as_str res_bind].
    change (list_fmap _ _ destination_value dests) with (destination_value <$> dests).
    rewrite IH. reflexivity.
  - cbn [fmap list_fmap destination_value build_sensors].
    change (list_fmap _ _ destination_value dests) with (destination_value <$> dests).
    rewrite IH. reflexivity.
Qed.

Lemma async_setup_entry_codes (config : gmap string pyval) (s k o w : string)
    (dests : list (option string)) :
  config !! CONF_ARRIVAL = Some (PStr s) ->
  config !! CONF_DESTINATIONS = Some (PList (destination_value <$> dests)) ->
  config !! CONF_API_KEY = Some (PStr k) ->
  config !! CONF_TIME_OFFSET = Some (PStr o) ->
  config !! CONF_TIME_WINDOW = Some (PStr w) ->
  setup_entry config
  = Ok ((fun d => new_sensor (default (PStr DEFAULT_NAME) (config !! CONF_NAME)) s d k o w)
          <$> omap id dests).
Proof.
  intros Hs Hd Hk Ho Hw. unfold async_setup_entry, py_getitem.
  rewrite Hs, Hd, Hk, Ho, Hw. cbn [res_bind collect_sensors py_iter].
  apply build_sensors_codes.
Qed.

(** X1: from a configuration whose station, API key, offset and window are
    strings and whose destinations are a list of codes and [None]s, the
    entry point hands over one sensor per destination that is not [None],
    in the order of the list, each constructed from the configured values
    (and from the default name when the configuration has none). *)
Theorem async_setup_entry_builds (config : gmap string pyval) (s k o w : string)
    (dests : list (option string)) :
  config !! CONF_ARRIVAL = Some (PStr s) ->
  config !! CONF_DESTINATIONS = Some (PList (destination_value <$> dests)) ->
  config !! CONF_API_KEY = Some (PStr k) ->
  config !! CONF_TIME_OFFSET = Some (PStr o) ->
  config !! CONF_TIME_WINDOW = Some (PStr w) ->
  setup_entry config
  = Ok ((fun d => new_sensor (default (PStr DEFAULT_NAME) (config !! CONF_NAME)) s d k o w)
          <$> omap id dests).
Proof. apply async_setup_entry_codes. Qed.

(** X2: when the station of the configuration is [None] and the other four
    entries exist, the entry point hands over the empty list, whatever the
    destinations entry is. *)
Theorem async_setup_entry_no_station (config : gmap string pyval) :
  config !! CONF_ARRIVAL = Some PNone ->
  is_Some (config !! CONF_DESTINATIONS) ->
  is_Some (config !! CONF_API_KEY) ->
  is_Some (config !! CONF_TIME_OFFSET) ->
  is_Some (config !! CONF_TIME_WINDOW) ->
  setup_entry config = Ok [].
Proof.
  intros Hs [d Hd] [k Hk] [o Ho] [w Hw].
  unfold async_setup_entry, py_getitem.
  rewrite Hs, Hd, Hk, Ho, Hw. reflexivity.
Qed.

(** X3: a configuration that lacks the station, the destinations, the API
    key, the offset or the window makes the entry point raise [KeyError];
    only the name has a default. *)
Theorem async_setup_entry_missing_key (config : gmap string pyval) :
  config !! CONF_ARRIVAL = None \/
  config !! CONF_DESTINATIONS = None \/
  config !! CONF_API_KEY = None \/
  config !! CONF_TIME_OFFSET = None \/
  config !! CONF_TIME_WINDOW = None ->
  setup_entry config = Raise KeyError.
Proof.
  intros H. unfold async_setup_entry, py_getitem.
  destruct (config !! CONF_ARRIVAL) as [s|]; [|reflexivity].
  destruct (config !! CONF_DESTINATIONS) as [d|]; [|reflexivity].
  destruct (config !! CONF_API_KEY) as [k|]; [|reflexivity].
  destruct (config !! CONF_TIME_OFFSET) as [o|]; [|reflexivity].
  destruct (config !! CONF_TIME_WINDOW) as [w|]; [|reflexivity].
  destruct H as [H|[H|[H|[H|H]]]]; discriminate H.
Qed.

End SetupEntry.

Lemma async_setup_entry_builds_witness :
  async_setup_entry "api_key" "arrival" "destinations" "time_offset" "time_window"
    "National Rail" sample_config
  = Ok [init "time_offset" "time_window" (PStr "National Rail") "PAD" "KGX" "key" "5" "120";
        init "time_offset" "time_window" (PStr "National Rail") "PAD" "RDG" "key" "5" "120"].
Proof.
  apply (async_setup_entry_builds "api_key" "arrival" "destinations" "time_offset"
           "time_window" "National Rail" sample_config "PAD" "key" "5" "120"
           [Some "KGX"; None; Some "RDG"]);
    vm_compute; reflexivity.
Defined.

Lemma async_setup_entry_no_station_witness :
  async_setup_entry "api_key" "arrival" "destinations" "time_offset" "time_window"
    "National Rail" (<["arrival" := PNone]> (<["destinations" := PInt 3]> sample_config))
  = Ok [].
Proof.
  apply async_setup_entry_no_station; vm_compute; eauto.
Defined.

Lemma async_setup_entry_missing_key_witness :
  async_setup_entry "api_key" "arrival" "destinations" "time_offset" "time_window"
    "National Rail" (delete "time_window" sample_config)
  = Raise KeyError.
Proof.
  apply async_setup_entry_missing_key. do 4 right. vm_compute. reflexivity.
Defined.

(** ** Unique identifiers *)

Lemma append_nil_l (s : string) : "" ++ s = s.
Proof. reflexivity. Qed.

Lemma append_cons (c : ascii) (r s : string) : String c r ++ s = String c (r ++ s).
Proof. reflexivity. Qed.

Lemma length_append (a b : string) :
  String.length (a ++ b) = String.length a + String.length b.
Proof.
  induction a as [|c a IH]; [reflexivity|].
  rewrite append_cons. cbn [String.length]. rewrite IH. reflexivity.
Qed.

Lemma append_inj_l (s a b : string) : s ++ a = s ++ b -> a = b.
Proof.
  induction s as [|c s IH]; [trivial|].
  rewrite !append_cons. intros H. injection H as H. exact (IH H).
Qed.

Lemma append_inj_r (a b s : string) : a ++ s = b ++ s -> a = b.
Proof.
  revert b. induction a as [|c a IH]; intros [|c' b] H.
  - reflexivity.
  - apply (f_equal String.length) in H. rewrite append_nil_l, length_append in H.
    cbn [String.length] in H. lia.
  - apply (f_equal String.length) in H. rewrite append_nil_l, length_append in H.
    cbn [String.length] in H. lia.
  - rewrite !append_cons in H. injection H as -> H. f_equal. exact (IH _ H).
Qed.

(** Up to the first underscore: a code without underscores is recovered
    from what follows it. *)
Lemma append_underscore_inj (s s' r r' : string) :
  has_underscore s = false -> has_underscore s' = false ->
  s ++ "_" ++ r = s' ++ "_" ++ r' -> s = s' /\ r = r'.
Proof.
  revert s'. induction s as [|c s IH]; intros [|c' s'] Hs Hs' H.
  - rewrite !append_nil_l in H. split; [reflexivity|]. exact (append_inj_l "_" _ _ H).
  - rewrite append_nil_l, !append_cons, append_nil_l in H. injection H as <- _.
    cbn in Hs'. discriminate Hs'.
  - rewrite append_nil_l, !append_cons, append_nil_l in H. injection H as -> _.
    cbn in Hs. discriminate Hs.
  - rewrite !append_cons in H. injection H as -> H.
    cbn [has_underscore] in Hs, Hs'.
    apply orb_false_iff in Hs as [_ Hs]. apply orb_false_iff in Hs' as [_ Hs'].
    destruct (IH s' Hs Hs' H) as [-> ->]. split; reflexivity.
Qed.

Section UniqueIds.

Variables CONF_TIME_OFFSET CONF_TIME_WINDOW : string.
Local Abbreviation new_sensor := (init CONF_TIME_OFFSET CONF_TIME_WINDOW).

(** X4: among the sensors of one station and one offset the unique
    identifier determines the destination; so destinations without
    repetition give sensors whose identifiers are without repetition. *)
Theorem unique_id_per_destination (name : pyval) (s k o w : string) (dests : list string) :
  NoDup dests ->
  NoDup (unique_id <$> ((fun d => new_sensor name s d k o w) <$> dests)).
Proof.
  intros Hnd. rewrite <- list_fmap_compose.
  assert (Inj (=) (=) (unique_id ∘ (fun d => new_sensor name s d k o w))) as Hinj.
  { intros d d' H. unfold compose, unique_id in H. cbn [_name init] in H.
    apply append_inj_l, append_inj_l in H. exact (append_inj_r _ _ _ H). }
  apply (NoDup_fmap_2 _ _ Hnd).
Qed.

(** X5: for station and destination codes without underscores the unique
    identifier determines the station, the destination and the offset;
    with an underscore in a code two different triples can share one
    identifier. *)
Theorem unique_id_injective :
  (forall (name name' : pyval) (s d o k w s' d' o' k' w' : string),
     has_underscore s = false -> has_underscore d = false ->
     has_underscore s' = false -> has_underscore d' = false ->
     unique_id (new_sensor name s d k o w) = unique_id (new_sensor name' s' d' k' o' w') ->
     s = s' /\ d = d' /\ o = o') /\
  (forall (name : pyval) (k w : string),
     unique_id (new_sensor name "A_B" "C" k "1" w)
     = unique_id (new_sensor name "A" "B_C" k "1" w)).
Proof.
  split; [|reflexivity].
  intros name name' s d o k w s' d' o' k' w' Hs Hd Hs' Hd' H.
  unfold unique_id in H. cbn [_name init] in H.
  apply append_underscore_inj in H as [-> H]; [|assumption..].
  apply append_underscore_inj in H as [-> ->]; [|assumption..].
  repeat split.
Qed.

End UniqueIds.

Lemma unique_id_per_destination_witness :
  NoDup (unique_id <$>
           ((fun d => init "time_offset" "time_window" (PStr "National Rail")
                        "PAD" d "key" "5" "120") <$> ["KGX"; "RDG"])).
Proof.
  apply unique_id_per_destination. apply (bool_decide_unpack _). vm_compute. exact I.
Defined.

Lemma unique_id_injective_witness : "PAD" = "PAD" /\ "KGX" = "KGX" /\ "5" = "5".
Proof.
  apply (proj1 (unique_id_injective "time_offset" "time_window")
           PNone PNone "PAD" "KGX" "5" "key" "120" "PAD" "KGX" "5" "other" "60");
    reflexivity.
Defined.

(** ** What a refresh can do to the sensor *)

(** The four ways a refresh ends. *)
Lemma async_update_cases (parse : string -> res datetime) (request : res pyval)
    (self : NationalrailSensor) :
  let out := async_update parse request self in
  (no_data_or_error request = true /\
   exists msg, is_sentinel msg /\ out = (Ok tt, set__state (Some msg) self)) \/
  (exists e, request = Raise e /\ isinstance_Exception e = false /\ out = (Raise e, self)) \/
  (exists result e, request = Ok result /\ truthy result = true /\
     fst out = Raise e /\
     last_data (snd out) = last_data self /\ _state (snd out) = _state self) \/
  (exists (d svc : gmap string pyval) (ln fn etd : pyval) (rest : list pyval) (t : datetime),
     request = Ok (PDict d) /\
     d !! "locationName" = Some ln /\
     d !! "filterLocationName" = Some fn /\
     d !! "trainServices" = Some (PList (PDict svc :: rest)) /\
     svc !! "etd" = Some etd /\
     out = (Ok tt,
            set_last_data (PDict d)
              (set__state (Some (strftime_HM t))
                 (set_service_data (PDict svc)
                    (set_destination_name fn (set_station_name ln self)))))).
Proof.
  intros out. subst out. destruct request as [result|e].
  - destruct (truthy result) eqn:Htruthy.
    2:{ left. split; [cbn; rewrite Htruthy; reflexivity|].
        eexists. split; [left; reflexivity|]. apply async_update_no_reply, Htruthy. }
    right. right.
    assert (forall e s, async_update parse (Ok result) self = (Raise e, s) ->
            last_data s = last_data self -> _state s = _state self ->
            exists result' e', Ok result = Ok result' /\ truthy result' = true /\
              fst (async_update parse (Ok result) self) = Raise e' /\
              last_data (snd (async_update parse (Ok result) self)) = last_data self /\
              _state (snd (async_update parse (Ok result) self)) = _state self) as Hraise.
    { intros e s Heq Hld Hst. exists result, e. rewrite Heq. repeat split; assumption. }
    destruct result as [| | | |l|d];
      try (left; eapply Hraise;
           [unfold async_update; rewrite Htruthy; reflexivity|reflexivity..]).
    destruct (d !! "locationName") as [ln|] eqn:Hln.
    2:{ left. eapply Hraise;
          [unfold async_update; rewrite Htruthy; cbn [negb];
           unfold interpret, bind, lift, py_getitem; rewrite Hln; reflexivity
          |reflexivity..]. }
    destruct (d !! "filterLocationName") as [fn|] eqn:Hfn.
    2:{ left. eapply Hraise;
          [unfold async_update; rewrite Htruthy; cbn [negb];
           unfold interpret, bind, lift, assign, py_getitem; rewrite Hln, Hfn; reflexivity
          |reflexivity..]. }
    destruct (d !! "trainServices") as [services|] eqn:Hts.
    2:{ left. eapply Hraise;
          [unfold async_update; rewrite Htruthy; cbn [negb];
           unfold interpret, bind, lift, assign, py_getitem, py_get;
           rewrite Hln, Hfn, Hts; reflexivity
          |reflexivity..]. }
    pose proof (async_update_names_then_services parse self d ln fn services Hln Hfn Hts)
      as Heq. cbn zeta in Heq.
    destruct (py_getitem_0 services) as [service|e] eqn:H0.
    2:{ left. eapply Hraise; [exact Heq|reflexivity..]. }
    destruct (next_train_time service) as [v|e] eqn:Hnt.
    2:{ left. eapply Hraise; [exact Heq|reflexivity..]. }
    cbn [res_bind] in Heq.
    destruct (parser_parse parse v) as [t|e] eqn:Hp.
    2:{ left. eapply Hraise; [exact Heq|reflexivity..]. }
    right.
    destruct service as [| | | |l|svc]; try discriminate Hnt.
    destruct services as [| | |str|[|x l]|d']; try discriminate H0.
    { destruct str; discriminate H0. }
    injection H0 as ->.
    destruct (svc !! "etd") as [etd|] eqn:Hetd.
    2:{ rewrite (next_train_time_absent _ Hetd) in Hnt. discriminate Hnt. }
    exists d, svc, ln, fn, etd, l, t. repeat split; assumption.
  - destruct (isinstance_Exception e) eqn:Hexc.
    + left. split; [exact Hexc|].
      destruct (isinstance_OSError e) eqn:Hos.
      * eexists. split; [right; left; reflexivity|].
        apply async_update_transport_error, Hos.
      * eexists. split; [right; right; reflexivity|].
        apply async_update_other_error; assumption.
    + right. left. exists e. repeat split; [exact Hexc|].
      apply async_update_base_exception, Hexc.
Qed.

Ltac solve_preserves :=
  unfold async_update;
  repeat match goal with
         | |- preserves _ (match ?x with _ => _ end) => destruct x
         | |- preserves _ (if ?b then _ else _) => destruct b
         end;
  try unfold interpret; preserves_steps.

Lemma updates_preserve {C} (f : NationalrailSensor -> C) (parse : string -> res datetime) :
  (forall request, preserves f (async_update parse request)) ->
  forall requests self, f (updates parse requests self) = f self.
Proof.
  intros Hf requests. induction requests as [|request rest IH]; intros self; [reflexivity|].
  cbn [updates]. rewrite IH. apply Hf.
Qed.

(** X6: no run of refreshes, whatever the requests return or raise, changes
    what the sensor was configured with: station, destination, offset,
    platform name and the client. *)
Theorem refresh_keeps_configuration (parse : string -> res datetime)
    (requests : list (res pyval)) (self : NationalrailSensor) :
  let self' := updates parse requests self in
  station self' = station self /\
  destination self' = destination self /\
  time_offset self' = time_offset self /\
  _platformname self' = _platformname self /\
  api self' = api self.
Proof.
  cbn zeta. repeat split; apply updates_preserve; intros request; solve_preserves.
Qed.

(** A request that is no data or an error only sets the display state. *)
Lemma async_update_sentinel (parse : string -> res datetime) (request : res pyval)
    (self : NationalrailSensor) :
  no_data_or_error request = true ->
  exists msg, is_sentinel msg /\
    async_update parse request self = (Ok tt, set__state (Some msg) self).
Proof.
  intros H. destruct request as [result|e]; cbn in H.
  - apply negb_true_iff in H. eexists. split; [left; reflexivity|].
    apply async_update_no_reply, H.
  - destruct (isinstance_OSError e) eqn:Hos.
    + eexists. split; [right; left; reflexivity|]. apply async_update_transport_error, Hos.
    + eexists. split; [right; right; reflexivity|].
      apply async_update_other_error; assumption.
Qed.

Lemma updates_no_data_or_error (parse : string -> res datetime)
    (requests : list (res pyval)) (self : NationalrailSensor) :
  forallb no_data_or_error requests = true ->
  let self' := updates parse requests self in
  last_data self' = last_data self /\
  service_data self' = service_data self /\
  station_name self' = station_name self /\
  destination_name self' = destination_name self /\
  time_offset self' = time_offset self /\
  (requests <> [] -> exists msg, is_sentinel msg /\ state self' = Some msg).
Proof.
  cbn zeta. revert self. induction requests as [|request rest IH]; intros self Hall.
  - repeat split. intros []. reflexivity.
  - cbn [forallb] in Hall. apply andb_true_iff in Hall as [Hreq Hrest].
    destruct (async_update_sentinel parse request self Hreq) as (msg & Hmsg & Heq).
    cbn [updates]. rewrite Heq. cbn [snd].
    destruct (IH (set__state (Some msg) self) Hrest)
      as (Hld & Hsd & Hsn & Hdn & Hto & Hst).
    repeat split; try assumption.
    intros _. destruct rest as [|request' rest'].
    + exists msg. split; [exact Hmsg|reflexivity].
    + apply Hst. discriminate.
Qed.

(** X7: through any run of refreshes that each got no data or an error, the
    snapshot and the names stay as they were (stale data and fetched names
    are kept), and after a non-empty run the display state is one of the
    three sentinel messages. *)
Theorem failed_refreshes_keep_snapshot (parse : string -> res datetime)
    (requests : list (res pyval)) (self : NationalrailSensor) :
  forallb no_data_or_error requests = true ->
  let self' := updates parse requests self in
  last_data self' = last_data self /\
  service_data self' = service_data self /\
  station_name self' = station_name self /\
  destination_name self' = destination_name self /\
  (requests <> [] -> exists msg, is_sentinel msg /\ state self' = Some msg).
Proof.
  intros Hall. destruct (updates_no_data_or_error parse requests self Hall)
    as (Hld & Hsd & Hsn & Hdn & _ & Hst).
  cbn zeta. repeat split; assumption.
Qed.

Lemma failed_refreshes_keep_snapshot_witness :
  let self := snd (async_update clock_parse (Ok (sample_reply [sample_service]))
                     sample_sensor) in
  let self' := updates clock_parse
                 [Ok PNone; Raise (mk_exc OSErrorFamily "TimeoutError"); Ok (PDict ∅)]
                 self in
  last_data self' = last_data self /\
  service_data self' = service_data self /\
  station_name self' = station_name self /\
  destination_name self' = destination_name self /\
  ([Ok PNone; Raise (mk_exc OSErrorFamily "TimeoutError"); Ok (PDict ∅)] <> [] ->
   exists msg, is_sentinel msg /\ state self' = Some msg).
Proof.
  intros self.
  apply (failed_refreshes_keep_snapshot clock_parse
           [Ok PNone; Raise (mk_exc OSErrorFamily "TimeoutError"); Ok (PDict ∅)] self).
  reflexivity.
Defined.

(** X8: a refresh that raises, whatever the exception, has changed neither
    [last_data] nor the display state. *)
Theorem refresh_raise_keeps_snapshot (parse : string -> res datetime)
    (request : res pyval) (self : NationalrailSensor) (e : pyexc) :
  fst (async_update parse request self) = Raise e ->
  last_data (snd (async_update parse request self)) = last_data self /\
  state (snd (async_update parse request self)) = state self.
Proof.
  intros Hraise.
  destruct (async_update_cases parse request self)
    as [(_ & msg & _ & Heq)|[(e' & _ & _ & Heq)|[(r & e' & _ & _ & _ & Hld & Hst)|Hok]]].
  - rewrite Heq in Hraise. discriminate Hraise.
  - rewrite Heq. split; reflexivity.
  - split; assumption.
  - destruct Hok as (d & svc & ln & fn & etd & rest & t & _ & _ & _ & _ & _ & Heq).
    rewrite Heq in Hraise. discriminate Hraise.
Qed.

Lemma refresh_raise_keeps_snapshot_witness :
  last_data (snd (async_update clock_parse (Ok reply_without_etd) sample_sensor))
  = last_data sample_sensor /\
  state (snd (async_update clock_parse (Ok reply_without_etd) sample_sensor))
  = state sample_sensor.
Proof.
  apply (refresh_raise_keeps_snapshot clock_parse (Ok reply_without_etd) sample_sensor
           KeyError).
  vm_compute. reflexivity.
Defined.

(** X9: after a refresh that returns normally the display state is a
    string: one of the three sentinel messages or a time of the shape
    [HH:MM]. *)
Theorem refresh_normal_state (parse : string -> res datetime)
    (request : res pyval) (self : NationalrailSensor) :
  fst (async_update parse request self) = Ok tt ->
  exists msg, state (snd (async_update parse request self)) = Some msg /\
              (is_sentinel msg \/ is_HHMM msg = true).
Proof.
  intros Hok.
  destruct (async_update_cases parse request self)
    as [(_ & msg & Hmsg & Heq)|[(e' & _ & _ & Heq)|[(r & e' & _ & _ & Hr & _)|Hfill]]].
  - rewrite Heq. exists msg. split; [reflexivity|left; exact Hmsg].
  - rewrite Heq in Hok. discriminate Hok.
  - rewrite Hr in Hok. discriminate Hok.
  - destruct Hfill as (d & svc & ln & fn & etd & rest & t & _ & _ & _ & _ & _ & Heq).
    rewrite Heq. exists (strftime_HM t). split; [reflexivity|].
    right. apply strftime_HM_shape.
Qed.

Lemma refresh_normal_state_witness :
  exists msg,
    state (snd (async_update clock_parse (Ok (sample_reply [sample_service])) sample_sensor))
    = Some msg /\
    (is_sentinel msg \/ is_HHMM msg = true).
Proof.
  apply (refresh_normal_state clock_parse (Ok (sample_reply [sample_service]))
           sample_sensor).
  vm_compute. reflexivity.
Defined.

(** ** The snapshot of a sensor in use *)

Lemma async_update_snapshot_shape (parse : string -> res datetime)
    (request : res pyval) (self : NationalrailSensor) :
  snapshot_shape (last_data self) ->
  snapshot_shape (last_data (snd (async_update parse request self))).
Proof.
  intros Hshape.
  destruct (async_update_cases parse request self)
    as [(_ & msg & _ & Heq)|[(e' & _ & _ & Heq)|[(r & e' & _ & _ & _ & Hld & _)|Hfill]]].
  - rewrite Heq. exact Hshape.
  - rewrite Heq. exact Hshape.
  - rewrite Hld. exact Hshape.
  - destruct Hfill as (d & svc & ln & fn & etd & rest & t & _ & Hln & Hfn & Hts & Hetd & Heq).
    rewrite Heq. right. exists d, svc, ln, fn, etd, rest. repeat split; assumption.
Qed.

Lemma updates_snapshot_shape (parse : string -> res datetime)
    (requests : list (res pyval)) (self : NationalrailSensor) :
  snapshot_shape (last_data self) ->
  snapshot_shape (last_data (updates parse requests self)).
Proof.
  revert self. induction requests as [|request rest IH]; intros self Hshape; [exact Hshape|].
  cbn [updates]. apply IH, async_update_snapshot_shape, Hshape.
Qed.

(** X10: on a sensor that was constructed and then refreshed any number of
    times, with whatever results and failures, [last_data] is either the
    empty dictionary or a dictionary with both names and a list of
    services whose first record is a dictionary with an [etd] entry. *)
Theorem snapshot_shape_reachable (CONF_TIME_OFFSET CONF_TIME_WINDOW : string)
    (parse : string -> res datetime) (name : pyval) (s d k o w : string)
    (requests : list (res pyval)) :
  snapshot_shape
    (last_data (updates parse requests
                  (init CONF_TIME_OFFSET CONF_TIME_WINDOW name s d k o w))).
Proof. apply updates_snapshot_shape. left. reflexivity. Qed.

(** X11: on a sensor that was constructed and then refreshed any number
    of times, the attributes fail only through the primary service: when
    [service_data] is a dictionary with
    [subsequentCallingPoints] whose calling points can be listed,
    [extra_state_attributes] returns a mapping, and it has [last_refresh]. *)
Theorem attributes_of_reachable (CONF_TIME_OFFSET CONF_TIME_WINDOW : string)
    (STATIONS : gmap string string) (parse : string -> res datetime)
    (name : pyval) (s d k o w : string) (requests : list (res pyval))
    (svc : gmap string pyval) (groups names : pyval) :
  let self := updates parse requests
                (init CONF_TIME_OFFSET CONF_TIME_WINDOW name s d k o w) in
  service_data self = PDict svc ->
  svc !! "subsequentCallingPoints" = Some groups ->
  calling_points (PDict svc) = Ok names ->
  exists attributes,
    extra_state_attributes STATIONS self = Ok attributes /\
    is_Some (attributes !! "last_refresh").
Proof.
  intros self Hsd Hg Hcp.
  destruct (updates_snapshot_shape parse requests
              (init CONF_TIME_OFFSET CONF_TIME_WINDOW name s d k o w))
    as [Hempty|(dd & svc' & ln & fn & etd & rest & Hld & Hln & Hfn & Hts & _)].
  { left. reflexivity. }
  - rewrite (attributes_empty_snapshot STATIONS self svc groups Hempty Hsd Hg).
    eexists. split; [reflexivity|]. rewrite lookup_singleton_eq. eauto.
  - rewrite (attributes_filled_snapshot STATIONS self dd svc ln fn groups names _
               Hld Hsd Hln Hfn Hts Hg Hcp).
    eexists. split; [reflexivity|]. unfold base_attributes. cbn zeta.
    destruct (STATIONS !! destination self); simplify_map_eq; eauto.
Qed.

Lemma attributes_of_reachable_witness :
  exists attributes,
    extra_state_attributes sample_stations
      (updates clock_parse [Ok (sample_reply [sample_service]); Ok PNone]
         (init "time_offset" "time_window" (PStr "National Rail") "PAD" "KGX" "key" "5" "120"))
    = Ok attributes /\
    is_Some (attributes !! "last_refresh").
Proof.
  apply (attributes_of_reachable "time_offset" "time_window" sample_stations clock_parse
           (PStr "National Rail") "PAD" "KGX" "key" "5" "120"
           [Ok (sample_reply [sample_service]); Ok PNone]
           (list_to_map [("std", PStr "10:15"); ("etd", PStr "10:21");
                         ("subsequentCallingPoints",
                          PList [dict [("callingPoint",
                                        PList [dict [("locationName", PStr "Reading")];
                                               dict [("locationName", PStr "Slough")]])]])])
           (PList [dict [("callingPoint",
                          PList [dict [("locationName", PStr "Reading")];
                                 dict [("locationName", PStr "Slough")]])]])
           (PList [PStr "Reading"; PStr "Slough"]));
    vm_compute; reflexivity.
Defined.

(** X12: when the first service of a result with both names cannot give a
    departure time (the choice of the time or its parsing raises), the
    refresh raises that exception after it has overwritten the names and
    [service_data]; [last_data] and the display state are the old ones,
    so the primary service and the snapshot no longer belong together. *)
Theorem refresh_bad_time_partial (parse : string -> res datetime)
    (self : NationalrailSensor) (d : gmap string pyval) (ln fn service : pyval)
    (rest : list pyval) (e : pyexc) :
  d !! "locationName" = Some ln ->
  d !! "filterLocationName" = Some fn ->
  d !! "trainServices" = Some (PList (service :: rest)) ->
  res_bind (next_train_time service) (parser_parse parse) = Raise e ->
  let out := async_update parse (Ok (PDict d)) self in
  fst out = Raise e /\
  station_name (snd out) = ln /\
  destination_name (snd out) = fn /\
  service_data (snd out) = service /\
  last_data (snd out) = last_data self /\
  state (snd out) = state self.
Proof.
  intros Hln Hfn Hts Hbad out. subst out.
  rewrite (async_update_names_then_services _ _ _ _ _ _ Hln Hfn Hts).
  cbn [py_getitem_0]. cbn zeta. rewrite Hbad. repeat split.
Qed.

Lemma refresh_bad_time_partial_witness :
  let out := async_update clock_parse (Ok delayed_reply) sample_sensor in
  fst out = Raise ParserError /\
  station_name (snd out) = PStr "London Paddington" /\
  destination_name (snd out) = PStr "London Kings Cross" /\
  service_data (snd out) = dict [("std", PStr "10:15"); ("etd", PStr "Delayed")] /\
  last_data (snd out) = last_data sample_sensor /\
  state (snd out) = state sample_sensor.
Proof.
  apply (refresh_bad_time_partial clock_parse sample_sensor
           (list_to_map [("generatedAt", PStr "2024-01-01T10:00:00");
                         ("locationName", PStr "London Paddington");
                         ("filterLocationName", PStr "London Kings Cross");
                         ("trainServices",
                          PList [dict [("std", PStr "10:15"); ("etd", PStr "Delayed")]])])
           (PStr "London Paddington") (PStr "London Kings Cross")
           (dict [("std", PStr "10:15"); ("etd", PStr "Delayed")]) [] ParserError);
    vm_compute; reflexivity.
Defined.

(** ** The attributes after a refresh *)

Section AfterRefresh.

Variable STATIONS : gmap string string.
Variable parse : string -> res datetime.
Variable self : NationalrailSensor.
Variables (d svc : gmap string pyval) (ln fn : pyval) (rest : list pyval).
Variables (etd std : string) (t : datetime).
Hypothesis Hln : d !! "locationName" = Some ln.
Hypothesis Hfn : d !! "filterLocationName" = Some fn.
Hypothesis Hts : d !! "trainServices" = Some (PList (PDict svc :: rest)).
Hypothesis Hetd : svc !! "etd" = Some (PStr etd).
Hypothesis Hstd : svc !! "std" = Some (PStr std).
Hypothesis Hparse : parse (if String.eqb etd "On time" then std else etd) = Ok t.

Local Abbreviation refreshed := (snd (async_update parse (Ok (PDict d)) self)).

Lemma refreshed_fields :
  last_data refreshed = PDict d /\ service_data refreshed = PDict svc /\
  destination refreshed = destination self /\ station refreshed = station self /\
  time_offset refreshed = time_offset self.
Proof.
  rewrite (async_update_well_formed parse self d svc ln fn rest etd std t)
    by assumption.
  repeat split.
Qed.

Lemma attributes_refreshed (groups names : pyval) :
  svc !! "subsequentCallingPoints" = Some groups ->
  calling_points (PDict svc) = Ok names ->
  extra_state_attributes STATIONS refreshed
  = Ok (let attributes := base_attributes self d svc ln fn (PDict svc :: rest) names in
        match STATIONS !! destination self with
        | Some station_name =>
            <["target_station_code" := PStr (destination self)]>
              (<["target_station_name" := PStr station_name]> attributes)
        | None => attributes
        end).
Proof.
  intros Hg Hcp. destruct refreshed_fields as (Hld & Hsd & Hdest & Hst & Hto).
  rewrite (attributes_filled_snapshot STATIONS _ d svc ln fn groups names _
             Hld Hsd Hln Hfn Hts Hg Hcp).
  unfold base_attributes. rewrite Hdest, Hst, Hto. reflexivity.
Qed.

Lemma attributes_refreshed_raise (groups : pyval) (e : pyexc) :
  svc !! "subsequentCallingPoints" = Some groups ->
  calling_points (PDict svc) = Raise e ->
  extra_state_attributes STATIONS refreshed = Raise e.
Proof.
  intros Hg Hcp. destruct refreshed_fields as (Hld & Hsd & _).
  unfold extra_state_attributes. rewrite Hsd, Hld.
  cbn [py_copy res_bind py_pop]. rewrite Hg.
  cbn [res_bind py_get py_len snd py_getitem]. rewrite Hln, Hfn, Hts, Hcp.
  assert (size d <> 0) as Hsize.
  { intros Hz. apply map_size_empty_inv in Hz. subst d.
    rewrite lookup_empty in Hln. discriminate. }
  destruct (size d) as [|n]; [congruence|]. reflexivity.
Qed.

End AfterRefresh.

(** X13: after a refresh that went through, on a primary service whose
    first group of subsequent calling points lists dictionaries, the
    attributes are returned; their keys are the nine fixed ones, and the
    two target-station ones exactly when the destination is in the table;
    the values are those of the new snapshot, the primary service without
    its [subsequentCallingPoints], the services after the first, and the
    location names of the calling points. *)
Theorem attributes_after_refresh (STATIONS : gmap string string)
    (parse : string -> res datetime) (self : NationalrailSensor)
    (d svc group : gmap string pyval) (ln fn : pyval) (rest groups : list pyval)
    (points : list (gmap string pyval)) (etd std : string) (t : datetime) :
  d !! "locationName" = Some ln ->
  d !! "filterLocationName" = Some fn ->
  d !! "trainServices" = Some (PList (PDict svc :: rest)) ->
  svc !! "etd" = Some (PStr etd) ->
  svc !! "std" = Some (PStr std) ->
  parse (if String.eqb etd "On time" then std else etd) = Ok t ->
  svc !! "subsequentCallingPoints" = Some (PList (PDict group :: groups)) ->
  group !! "callingPoint" = Some (PList (PDict <$> points)) ->
  exists attributes,
    extra_state_attributes STATIONS (snd (async_update parse (Ok (PDict d)) self))
    = Ok attributes /\
    dom attributes
    = base_keys ∪ match STATIONS !! destination self with
                  | Some _ => target_keys
                  | None => ∅
                  end /\
    attributes !! "last_refresh" = Some (default (PStr "") (d !! "generatedAt")) /\
    attributes !! "message" = Some (default (PStr "") (d !! "nrccMessages")) /\
    attributes !! "station_name" = Some ln /\
    attributes !! "destination_name" = Some fn /\
    attributes !! "service" = Some (PDict (delete "subsequentCallingPoints" svc)) /\
    attributes !! "services" = Some (PList rest) /\
    attributes !! "calling_points" = Some (PList (location_names points)) /\
    attributes !! "offset" = Some (PStr (time_offset self)) /\
    attributes !! "station_code" = Some (PStr (station self)).
Proof.
  intros Hln Hfn Hts Hetd Hstd Hparse Hg Hp.
  pose proof (calling_points_present _ _ _ _ Hg Hp) as Hcp.
  rewrite (attributes_refreshed STATIONS parse self d svc ln fn rest etd std t
             Hln Hfn Hts Hetd Hstd Hparse _ _ Hg Hcp).
  eexists. split; [reflexivity|]. unfold base_attributes. cbn zeta.
  split.
  - unfold base_keys, target_keys.
    destruct (STATIONS !! destination self);
      rewrite !dom_insert_L, dom_empty_L; cbn [list_to_set]; set_solver.
  - destruct (STATIONS !! destination self); simplify_map_eq; repeat split.
Qed.

Lemma attributes_after_refresh_witness :
  exists attributes,
    extra_state_attributes sample_stations
      (snd (async_update clock_parse (Ok (sample_reply [sample_service])) sample_sensor))
    = Ok attributes /\
    dom attributes
    = base_keys ∪ match sample_stations !! destination sample_sensor with
                  | Some _ => target_keys
                  | None => ∅
                  end /\
    attributes !! "last_refresh" = Some (PStr "2024-01-01T10:00:00") /\
    attributes !! "message" = Some (PStr "") /\
    attributes !! "station_name" = Some (PStr "London Paddington") /\
    attributes !! "destination_name" = Some (PStr "London Kings Cross") /\
    attributes !! "service"
    = Some (dict [("std", PStr "10:15"); ("etd", PStr "10:21")]) /\
    attributes !! "services" = Some (PList []) /\
    attributes !! "calling_points" = Some (PList [PStr "Reading"; PStr "Slough"]) /\
    attributes !! "offset" = Some (PStr "5") /\
    attributes !! "station_code" = Some (PStr "PAD").
Proof.
  refine (attributes_after_refresh sample_stations clock_parse sample_sensor
           (list_to_map [("generatedAt", PStr "2024-01-01T10:00:00");
                         ("locationName", PStr "London Paddington");
                         ("filterLocationName", PStr "London Kings Cross");
                         ("trainServices", PList [sample_service])])
           (list_to_map [("std", PStr "10:15"); ("etd", PStr "10:21");
                         ("subsequentCallingPoints",
                          PList [dict [("callingPoint",
                                        PList [dict [("locationName", PStr "Reading")];
                                               dict [("locationName", PStr "Slough")]])]])])
           (list_to_map [("callingPoint",
                          PList [dict [("locationName", PStr "Reading")];
                                 dict [("locationName", PStr "Slough")]])])
           (PStr "London Paddington") (PStr "London Kings Cross") [] []
           [list_to_map [("locationName", PStr "Reading")];
            list_to_map [("locationName", PStr "Slough")]]
           "10:21" "10:15" (mk_datetime 10 21 eq_refl eq_refl) _ _ _ _ _ _ _ _);
    vm_compute; reflexivity.
Defined.

Lemma calling_points_no_group (svc : gmap string pyval) :
  svc !! "subsequentCallingPoints" = Some (PList []) ->
  calling_points (PDict svc) = Raise IndexError.
Proof. intros Hg. unfold calling_points, py_get. rewrite Hg. reflexivity. Qed.

Lemma calling_points_no_points (svc group : gmap string pyval) (groups : list pyval) :
  svc !! "subsequentCallingPoints" = Some (PList (PDict group :: groups)) ->
  group !! "callingPoint" = None ->
  calling_points (PDict svc) = Ok (PList []).
Proof.
  intros Hg Hp. unfold calling_points, py_get at 1. rewrite Hg.
  cbn [from_option id res_bind py_getitem_0 py_get]. rewrite Hp. reflexivity.
Qed.

(** X14: only a missing [subsequentCallingPoints] has a default: after a
    refresh that went through on a primary service whose
    [subsequentCallingPoints] is an empty list, the attributes raise
    [IndexError]. *)
Theorem attributes_empty_groups (STATIONS : gmap string string)
    (parse : string -> res datetime) (self : NationalrailSensor)
    (d svc : gmap string pyval) (ln fn : pyval) (rest : list pyval)
    (etd std : string) (t : datetime) :
  d !! "locationName" = Some ln ->
  d !! "filterLocationName" = Some fn ->
  d !! "trainServices" = Some (PList (PDict svc :: rest)) ->
  svc !! "etd" = Some (PStr etd) ->
  svc !! "std" = Some (PStr std) ->
  parse (if String.eqb etd "On time" then std else etd) = Ok t ->
  svc !! "subsequentCallingPoints" = Some (PList []) ->
  extra_state_attributes STATIONS (snd (async_update parse (Ok (PDict d)) self))
  = Raise IndexError.
Proof.
  intros Hln Hfn Hts Hetd Hstd Hparse Hg.
  apply (attributes_refreshed_raise STATIONS parse self d svc ln fn rest etd std t
           Hln Hfn Hts Hetd Hstd Hparse _ _ Hg).
  apply calling_points_no_group, Hg.
Qed.

Lemma attributes_empty_groups_witness :
  extra_state_attributes sample_stations
    (snd (async_update clock_parse
            (Ok (sample_reply [dict [("std", PStr "10:15"); ("etd", PStr "On time");
                                     ("subsequentCallingPoints", PList [])]]))
            sample_sensor))
  = Raise IndexError.
Proof.
  refine (attributes_empty_groups sample_stations clock_parse sample_sensor
            (list_to_map
               [("generatedAt", PStr "2024-01-01T10:00:00");
                ("locationName", PStr "London Paddington");
                ("filterLocationName", PStr "London Kings Cross");
                ("trainServices",
                 PList [dict [("std", PStr "10:15"); ("etd", PStr "On time");
                              ("subsequentCallingPoints", PList [])]])])
            (list_to_map [("std", PStr "10:15"); ("etd", PStr "On time");
                          ("subsequentCallingPoints", PList [])])
            (PStr "London Paddington") (PStr "London Kings Cross") []
            "On time" "10:15" (mk_datetime 10 15 eq_refl eq_refl) _ _ _ _ _ _ _);
    vm_compute; reflexivity.
Defined.

(** X15: after a refresh that went through on a primary service whose
    first group of subsequent calling points has no [callingPoint] entry,
    the attributes are returned with an empty [calling_points] list. *)
Theorem attributes_group_without_points (STATIONS : gmap string string)
    (parse : string -> res datetime) (self : NationalrailSensor)
    (d svc group : gmap string pyval) (ln fn : pyval) (rest groups : list pyval)
    (etd std : string) (t : datetime) :
  d !! "locationName" = Some ln ->
  d !! "filterLocationName" = Some fn ->
  d !! "trainServices" = Some (PList (PDict svc :: rest)) ->
  svc !! "etd" = Some (PStr etd) ->
  svc !! "std" = Some (PStr std) ->
  parse (if String.eqb etd "On time" then std else etd) = Ok t ->
  svc !! "subsequentCallingPoints" = Some (PList (PDict group :: groups)) ->
  group !! "callingPoint" = None ->
  exists attributes,
    extra_state_attributes STATIONS (snd (async_update parse (Ok (PDict d)) self))
    = Ok attributes /\
    attributes !! "calling_points" = Some (PList []).
Proof.
  intros Hln Hfn Hts Hetd Hstd Hparse Hg Hp.
  pose proof (calling_points_no_points _ _ _ Hg Hp) as Hcp.
  rewrite (attributes_refreshed STATIONS parse self d svc ln fn rest etd std t
             Hln Hfn Hts Hetd Hstd Hparse _ _ Hg Hcp).
  eexists. split; [reflexivity|]. unfold base_attributes. cbn zeta.
  destruct (STATIONS !! destination self); simplify_map_eq; reflexivity.
Qed.

Lemma attributes_group_without_points_witness :
  exists attributes,
    extra_state_attributes sample_stations
      (snd (async_update clock_parse
              (Ok (sample_reply [dict [("std", PStr "10:15"); ("etd", PStr "On time");
                                       ("subsequentCallingPoints", PList [PDict ∅])]]))
              sample_sensor))
    = Ok attributes /\
    attributes !! "calling_points" = Some (PList []).
Proof.
  refine (attributes_group_without_points sample_stations clock_parse sample_sensor
            (list_to_map
               [("generatedAt", PStr "2024-01-01T10:00:00");
                ("locationName", PStr "London Paddington");
                ("filterLocationName", PStr "London Kings Cross");
                ("trainServices",
                 PList [dict [("std", PStr "10:15"); ("etd", PStr "On time");
                              ("subsequentCallingPoints", PList [PDict ∅])]])])
            (list_to_map [("std", PStr "10:15"); ("etd", PStr "On time");
                          ("subsequentCallingPoints", PList [PDict ∅])])
            ∅ (PStr "London Paddington") (PStr "London Kings Cross") [] []
            "On time" "10:15" (mk_datetime 10 15 eq_refl eq_refl) _ _ _ _ _ _ _ _);
    vm_compute; reflexivity.
Defined.

(** X16: the guard on the empty snapshot does its work once the primary
    service can be popped: when a sensor with empty [last_data] is
    refreshed with a result whose first service has
    [subsequentCallingPoints] but no [etd], the refresh raises and the
    attributes afterwards are exactly [last_refresh] with the empty string. *)
Theorem attributes_after_partial_refresh (STATIONS : gmap string string)
    (parse : string -> res datetime) (self : NationalrailSensor)
    (d svc : gmap string pyval) (ln fn groups : pyval) (rest : list pyval) :
  last_data self = PDict ∅ ->
  d !! "locationName" = Some ln ->
  d !! "filterLocationName" = Some fn ->
  d !! "trainServices" = Some (PList (PDict svc :: rest)) ->
  svc !! "etd" = None ->
  svc !! "subsequentCallingPoints" = Some groups ->
  let out := async_update parse (Ok (PDict d)) self in
  fst out = Raise KeyError /\
  extra_state_attributes STATIONS (snd out) = Ok {[ "last_refresh" := PStr "" ]}.
Proof.
  intros Hempty Hln Hfn Hts Hetd Hg out. subst out.
  rewrite (async_update_names_then_services _ _ _ _ _ _ Hln Hfn Hts).
  cbn [py_getitem_0]. cbn zeta. rewrite (next_train_time_absent _ Hetd).
  cbn [res_bind fst snd]. split; [reflexivity|].
  apply (attributes_empty_snapshot STATIONS _ svc groups); [exact Hempty|reflexivity|exact Hg].
Qed.

Lemma attributes_after_partial_refresh_witness :
  let out := async_update clock_parse (Ok reply_without_etd) sample_sensor in
  fst out = Raise KeyError /\
  extra_state_attributes sample_stations (snd out) = Ok {[ "last_refresh" := PStr "" ]}.
Proof.
  refine (attributes_after_partial_refresh sample_stations clock_parse sample_sensor
            (list_to_map
               [("generatedAt", PStr "2024-01-01T10:00:00");
                ("locationName", PStr "London Paddington");
                ("filterLocationName", PStr "London Kings Cross");
                ("trainServices",
                 PList [dict [("std", PStr "10:15");
                              ("subsequentCallingPoints",
                               PList [dict [("callingPoint", PList [])]])]])])
            (list_to_map [("std", PStr "10:15");
                          ("subsequentCallingPoints",
                           PList [dict [("callingPoint", PList [])]])])
            (PStr "London Paddington") (PStr "London Kings Cross")
            (PList [dict [("callingPoint", PList [])]]) [] _ _ _ _ _ _);
    vm_compute; reflexivity.
Defined.

(** ** The display name *)

Section DisplayNameProperties.

Variable py_int : string -> res Z.
Variable py_format : pyval -> string.

(** X17: a new sensor is named after the raw station and destination
    codes, with the walk suffix exactly when its offset converts to a
    non-zero integer; when the offset does not convert, reading the name
    raises what the conversion raises, although the constructor took it. *)
Theorem name_of_new_sensor (CONF_TIME_OFFSET CONF_TIME_WINDOW : string)
    (platform : pyval) (s d k o w : string) :
  let sensor := init CONF_TIME_OFFSET CONF_TIME_WINDOW platform s d k o w in
  (forall n, py_int o = Ok n ->
     name py_int py_format sensor
     = Ok (if negb (Z.eqb n 0)
           then ("Trains " ++ s ++ " to " ++ d) ++ " (" ++ o ++ "m walk)"
           else "Trains " ++ s ++ " to " ++ d)) /\
  (forall e, py_int o = Raise e -> name py_int py_format sensor = Raise e).
Proof.
  cbn zeta. split.
  - intros n Hn. unfold name. cbn [time_offset init station_name destination_name
                                   replacement_field].
    rewrite Hn. cbn [res_bind]. destruct (negb (Z.eqb n 0)); reflexivity.
  - intros e He. unfold name. cbn [time_offset init]. rewrite He. reflexivity.
Qed.

(** X18: once a refresh has fetched names that are strings, the sensor is
    named after them, and it stays so through any later refreshes that
    get no data or an error. *)
Theorem name_keeps_fetched_names (parse : string -> res datetime)
    (self : NationalrailSensor) (d svc : gmap string pyval) (ln fn : string)
    (rest : list pyval) (etd std : string) (t : datetime)
    (requests : list (res pyval)) (n : Z) :
  d !! "locationName" = Some (PStr ln) ->
  d !! "filterLocationName" = Some (PStr fn) ->
  d !! "trainServices" = Some (PList (PDict svc :: rest)) ->
  svc !! "etd" = Some (PStr etd) ->
  svc !! "std" = Some (PStr std) ->
  parse (if String.eqb etd "On time" then std else etd) = Ok t ->
  forallb no_data_or_error requests = true ->
  py_int (time_offset self) = Ok n ->
  name py_int py_format
    (updates parse requests (snd (async_update parse (Ok (PDict d)) self)))
  = Ok (if negb (Z.eqb n 0)
        then ("Trains " ++ ln ++ " to " ++ fn) ++ " (" ++ time_offset self ++ "m walk)"
        else "Trains " ++ ln ++ " to " ++ fn).
Proof.
  intros Hln Hfn Hts Hetd Hstd Hparse Hall Hn.
  destruct (updates_no_data_or_error parse requests
              (snd (async_update parse (Ok (PDict d)) self)) Hall)
    as (_ & _ & Hsn & Hdn & Hto & _).
  cbn zeta in *. unfold name. rewrite Hsn, Hdn, Hto.
  rewrite (async_update_well_formed parse self d svc (PStr ln) (PStr fn) rest etd std t)
    by assumption.
  cbn [snd station_name destination_name time_offset set_last_data set__state
       set_service_data set_destination_name set_station_name replacement_field].
  rewrite Hn. cbn [res_bind]. destruct (negb (Z.eqb n 0)); reflexivity.
Qed.

End DisplayNameProperties.

Lemma name_of_new_sensor_witness :
  name decimal_int (fun _ => "")
    (init "time_offset" "time_window" (PStr "National Rail") "PAD" "KGX" "key" "5" "120")
  = Ok "Trains PAD to KGX (5m walk)" /\
  name decimal_int (fun _ => "")
    (init "time_offset" "time_window" (PStr "National Rail") "PAD" "KGX" "key" "0" "120")
  = Ok "Trains PAD to KGX" /\
  name decimal_int (fun _ => "")
    (init "time_offset" "time_window" (PStr "National Rail") "PAD" "KGX" "key" "" "120")
  = Raise ValueError.
Proof.
  split; [|split].
  - apply (proj1 (name_of_new_sensor decimal_int (fun _ => "") "time_offset" "time_window"
                    (PStr "National Rail") "PAD" "KGX" "key" "5" "120") 5%Z).
    reflexivity.
  - apply (proj1 (name_of_new_sensor decimal_int (fun _ => "") "time_offset" "time_window"
                    (PStr "National Rail") "PAD" "KGX" "key" "0" "120") 0%Z).
    reflexivity.
  - apply (proj2 (name_of_new_sensor decimal_int (fun _ => "") "time_offset" "time_window"
                    (PStr "National Rail") "PAD" "KGX" "key" "" "120")).
    reflexivity.
Defined.

Lemma name_keeps_fetched_names_witness :
  name decimal_int (fun _ => "")
    (updates clock_parse [Ok PNone; Raise (mk_exc OSErrorFamily "TimeoutError")]
       (snd (async_update clock_parse (Ok (sample_reply [sample_service])) sample_sensor)))
  = Ok "Trains London Paddington to London Kings Cross (5m walk)".
Proof.
  refine (name_keeps_fetched_names decimal_int (fun _ => "") clock_parse sample_sensor
            (list_to_map [("generatedAt", PStr "2024-01-01T10:00:00");
                          ("locationName", PStr "London Paddington");
                          ("filterLocationName", PStr "London Kings Cross");
                          ("trainServices", PList [sample_service])])
            (list_to_map [("std", PStr "10:15"); ("etd", PStr "10:21");
                          ("subsequentCallingPoints",
                           PList [dict [("callingPoint",
                                         PList [dict [("locationName", PStr "Reading")];
                                                dict [("locationName", PStr "Slough")]])]])])
            "London Paddington" "London Kings Cross" [] "10:21" "10:15"
            (mk_datetime 10 21 eq_refl eq_refl)
            [Ok PNone; Raise (mk_exc OSErrorFamily "TimeoutError")] 5%Z
            _ _ _ _ _ _ _ _);
    vm_compute; reflexivity.
Defined.

(** ** Refreshing twice *)

(** X19: what a refresh assigns comes from the request alone, so a second
    refresh with the same outcome of the request ends the same way and
    leaves the sensor as the first left it. *)
Theorem refresh_idempotent (parse : string -> res datetime) (request : res pyval)
    (self : NationalrailSensor) :
  async_update parse request (snd (async_update parse request self))
  = async_update parse request self.
Proof.
  destruct self as [pn nm off dst st sta sn dn ap ld sd].
  unfold async_update. destruct request as [result|e].
  - destruct (negb (truthy result)); [reflexivity|].
    unfold interpret, bind, lift, assign, read.
    destruct (py_getitem result "locationName") as [ln|e1]; [|reflexivity].
    destruct (py_getitem result "filterLocationName") as [fn|e2]; [|reflexivity].
    destruct (py_get result "trainServices" PNone) as [services|e3]; [|reflexivity].
    destruct (py_getitem_0 services) as [service|e4]; [|reflexivity].
    cbn [fst snd service_data set_service_data].
    destruct (next_train_time service) as [v|e5]; [|reflexivity].
    destruct (parser_parse parse v) as [t|e6]; reflexivity.
  - destruct (isinstance_OSError e); [reflexivity|].
    destruct (isinstance_Exception e); reflexivity.
Qed.
